(** * h_sensor_acq: labelled collections of Keithley I/V runs

    A shallow embedding of [h_sensor_acq.py].  Python values are modelled
    by the Rocq data they range over, Python exceptions by an explicit
    result type, and the console, the user's keyboard and the HDF5 files
    by a state that every effectful function threads through. *)

From stdpp Require Import base option list gmap strings pretty.

Open Scope string_scope.
Open Scope list_scope.
Open Scope Z_scope.

(** ** Python runtime: exceptions, results, stateful computations *)

Module Py.

(** The exceptions that the embedded code can meet. *)
Inductive exn : Type :=
  | AttributeError
  | IndexError
  | KeyError
  | ValueError
  | EOFError
  | OSError.

Inductive res (A : Type) : Type :=
  | Ok (a : A)
  | Raise (e : exn).
Arguments Ok {A} a.
Arguments Raise {A} e.

Definition is_ok {A} (r : res A) : bool :=
  match r with Ok _ => true | Raise _ => false end.

(** A computation over a mutable state [S].  The state is returned on both
    outcomes: what was printed or stored before an exception stays so. *)
Definition M (S A : Type) : Type := S → res A * S.

Definition ret {S A} (a : A) : M S A := λ s, (Ok a, s).

Definition raise {S A} (e : exn) : M S A := λ s, (Raise e, s).

Definition bind {S A B} (m : M S A) (k : A → M S B) : M S B :=
  λ s, match m s with
       | (Ok a, s') => k a s'
       | (Raise e, s') => (Raise e, s')
       end.

Definition lift {S A} (r : res A) : M S A := λ s, (r, s).

Definition modify {S} (f : S → S) : M S () := λ s, (Ok (), f s).

Declare Scope py_scope.
Delimit Scope py_scope with py.
Notation "'let*' x := m 'in' k" := (bind m (λ x, k))
  (at level 10, x name, m at level 100, k at level 200) : py_scope.
Open Scope py_scope.

(** [for x in xs: body(x)]: the first exception ends the loop. *)
Fixpoint for_each {S X} (body : X → M S ()) (xs : list X) : M S () :=
  match xs with
  | [] => ret ()
  | x :: rest => let* _ := body x in for_each body rest
  end.

(** [range(n)] *)
Definition range (n : nat) : list nat := seq 0 n.

(** [l[j]] on a Python list: a negative subscript counts from the end,
    and a subscript outside [-len(l), len(l)) raises IndexError. *)
Definition getitem {A} (l : list A) (j : Z) : res A :=
  let n := Z.of_nat (length l) in
  let j' := if j <? 0 then j + n else j in
  if (j' <? 0) || (n <=? j') then Raise IndexError
  else match l !! Z.to_nat j' with
       | Some x => Ok x
       | None => Raise IndexError
       end.

(** [s.endswith(suffix)] *)
Definition endswith (s suffix : string) : bool :=
  let n := String.length s in
  let k := String.length suffix in
  if (k <=? n)%nat then String.eqb (String.substring (n - k) k s) suffix else false.

(** [needle in hay] on strings. *)
Definition contains (hay needle : string) : bool :=
  match String.index 0 needle hay with
  | Some _ => true
  | None => false
  end.

End Py.

Import Py.

(** ** Collection operations that do not look inside a record *)

Section Slice.

Context {A : Type}.

(** Line 206: [newdfs.append(dfs[n[i]])], on the local list [newdfs]. *)
Definition slice_body (dfs : list A) (n : list Z) (i : nat) : M (list A) () :=
  let* ni := lift (getitem n (Z.of_nat i)) in
  let* x := lift (getitem dfs ni) in
  modify (λ newdfs, newdfs ++ [x]).

(** Lines 204-207.  [newdfs] is handed back only when the loop ends without
    an exception. *)
Definition slice_dfs (dfs : list A) (n : list Z) : res (list A) :=
  match for_each (slice_body dfs n) (range (length n)) [] with
  | (Ok _, newdfs) => Ok newdfs
  | (Raise e, _) => Raise e
  end.

(** A subscript that Python accepts on a list of the given length. *)
Definition in_range (len : nat) (j : Z) : Prop :=
  - Z.of_nat len ≤ j < Z.of_nat len.

(** The position a subscript denotes. *)
Definition position (len : nat) (j : Z) : nat :=
  Z.to_nat (if j <? 0 then j + Z.of_nat len else j).

(** The record a subscript selects, when it selects one. *)
Definition selects (dfs : list A) (j : Z) (x : A) : Prop :=
  in_range (length dfs) j ∧ dfs !! position (length dfs) j = Some x.

End Slice.

(** ** Data frames, the console and the HDF5 files *)

(** One line of a data frame built by [get_sensor_data]: the three
    measured columns, and the file name and label that the function writes
    into every line.  [num] is the type of a parsed number. *)
Record row (num : Type) : Type := Row {
  col_t_s : num;
  col_v : num;
  col_i : num;
  col_fname : string;
  col_label : string
}.
Arguments Row {num} _ _ _ _ _.
Arguments col_t_s {num} _.
Arguments col_v {num} _.
Arguments col_i {num} _.
Arguments col_fname {num} _.
Arguments col_label {num} _.

(** A data frame with the default index 0, 1, 2, ... *)
Definition DataFrame (num : Type) : Type := list (row num).

(** [df.label[0]] and [df.fname[0]]: the entry of the column at index
    label 0, which a frame without lines does not have. *)
Definition label0 {num} (df : DataFrame num) : res string :=
  match df with
  | [] => Raise KeyError
  | r :: _ => Ok (col_label r)
  end.

Definition fname0 {num} (df : DataFrame num) : res string :=
  match df with
  | [] => Raise KeyError
  | r :: _ => Ok (col_fname r)
  end.

(** What [print] receives. *)
Inductive pyval : Type :=
  | PInt (z : Z)
  | PStr (s : string).

(** What reaches the terminal: a [print] call with its arguments, or the
    prompt of an [input] call. *)
Inductive event : Type :=
  | Print (args : list pyval)
  | Input (prompt : string).

Definition is_prompt (e : event) : bool :=
  match e with
  | Input _ => true
  | Print _ => false
  end.

(** The number of times the user was asked something. *)
Definition prompts (out : list event) : nat := length (filter is_prompt out).

(** The mutable world: the lines the user will type, the terminal, and the
    HDF5 files by name, each a keyed container of data frames. *)
Record World (num : Type) : Type := mkWorld {
  stdin : list string;
  stdout : list event;
  hdf : gmap string (gmap string (DataFrame num))
}.
Arguments mkWorld {num} _ _ _.
Arguments stdin {num} _.
Arguments stdout {num} _.
Arguments hdf {num} _.

(** The notes file as [pd.read_csv] returns it: one pair per line under
    the header [filename,description]. *)
Definition NotesFrame : Type := list (string * string).

(** The value bound to [notes]: the notes frame, or the integer 0 that line
    132 puts in its place. *)
Inductive notes_t : Type :=
  | Notes0
  | Notes (rows : NotesFrame).

(** What the code asks of the operating system and of pandas on files it
    only reads.  [read_csv_usecols] is [pd.read_csv(_, usecols=oldnames)]
    with the three columns in the order of the file; [Series_str] is
    [str] of a Series of file names. *)
Record Extern (num : Type) : Type := mkExtern {
  os_listdir : string → res (list string);
  read_csv : string → res NotesFrame;
  read_csv_usecols : string → res (list (num * num * num));
  Series_str : list string → string
}.
Arguments mkExtern {num} _ _ _ _.
Arguments os_listdir {num} _ _.
Arguments read_csv {num} _ _.
Arguments read_csv_usecols {num} _ _.
Arguments Series_str {num} _ _.

Section Acquisition.

Context {num : Type}.
Implicit Types (w : World num) (df : DataFrame num) (dfs : list (DataFrame num)).

(** [print(a, b, ...)] *)
Definition print (args : list pyval) : M (World num) () :=
  modify (λ w, mkWorld (stdin w) (stdout w ++ [Print args]) (hdf w)).

(** [input(prompt)]: shows the prompt, then takes the next typed line;
    EOFError when there is none. *)
Definition input (prompt : string) : M (World num) string :=
  λ w, match stdin w with
       | [] => (Raise EOFError, mkWorld [] (stdout w ++ [Input prompt]) (hdf w))
       | line :: rest => (Ok line, mkWorld rest (stdout w ++ [Input prompt]) (hdf w))
       end.

(** Lines 96-104. *)
Definition get_sensor_data (ext : Extern num) (path fname label : string)
    : res (DataFrame num) :=
  match read_csv_usecols ext (path +:+ fname) with
  | Raise e => Raise e
  | Ok sdata => Ok (map (λ '(t, v, i), Row t v i fname label) sdata)
  end.

(** Line 112. *)
Definition get_notes (ext : Extern num) (notespath : string) : res NotesFrame :=
  read_csv ext notespath.

(** [notes.filename] and [notes.description]: the integer 0 has no such
    attribute. *)
Definition attr_filename (notes : notes_t) : res (list string) :=
  match notes with
  | Notes0 => Raise AttributeError
  | Notes rows => Ok rows.*1
  end.

Definition attr_description (notes : notes_t) : res (list string) :=
  match notes with
  | Notes0 => Raise AttributeError
  | Notes rows => Ok rows.*2
  end.

(** [notes.index[notes.filename == file][0]]: the index of the first line
    whose file name equals [file]; IndexError when no line does. *)
Definition first_index (filename : list string) (file : string) : res nat :=
  match list_find (λ x, x = file) filename with
  | Some (n, _) => Ok n
  | None => Raise IndexError
  end.

(** [column[n]] on a column with the default index. *)
Definition at_label (column : list string) (n : nat) : res string :=
  match column !! n with
  | Some x => Ok x
  | None => Raise KeyError
  end.

Definition default_label : string := "not in notes".

(** Lines 139-146: the label of one file. *)
Definition resolve_label (ext : Extern num) (notes : notes_t) (file : string)
    : M (World num) string :=
  let* filename := lift (attr_filename notes) in
  if contains (Series_str ext filename) file then
    let* filename' := lift (attr_filename notes) in
    let* n := lift (first_index filename' file) in
    let* filename'' := lift (attr_filename notes) in
    let* shown := lift (at_label filename'' n) in
    let* _ := print [PStr ("
" +:+ shown)] in
    let* description := lift (attr_description notes) in
    let* d := lift (at_label description n) in
    let* _ := print [PStr d] in
    let s := "Provide a short label for this data:  " in
    input s
  else ret default_label.

(** Lines 139-147: the body of the [try]. *)
Definition try_file (ext : Extern num) (path : string) (notes : notes_t)
    (file : string) : M (World num) (DataFrame num) :=
  let* label := resolve_label ext notes file in
  lift (get_sensor_data ext path file label).

(** Lines 136-149: the loop over the directory listing.  Whatever the
    [try] raises, the bare [except] goes on with the next file. *)
Fixpoint scan (ext : Extern num) (path : string) (notes : notes_t)
    (files : list string) (dfs : list (DataFrame num)) (w : World num)
    : list (DataFrame num) * World num :=
  match files with
  | [] => (dfs, w)
  | file :: rest =>
      if endswith file ".csv" then
        match try_file ext path notes file w with
        | (Ok df, w') => scan ext path notes rest (dfs ++ [df]) w'
        | (Raise _, w') => scan ext path notes rest dfs w'
        end
      else scan ext path notes rest dfs w
  end.

(** Lines 127-151.  [os.listdir] is outside every [try]. *)
Definition get_all_raw_ivs (ext : Extern num) (path notesname : string)
    : M (World num) (notes_t * list (DataFrame num)) :=
  λ w,
    let '(notes, w1) :=
      match get_notes ext (path +:+ notesname) with
      | Ok rows => (Notes rows, w)
      | Raise _ => (Notes0, snd (print [PStr "no notes for this directory"] w))
      end in
    match os_listdir ext path with
    | Raise e => (Raise e, w1)
    | Ok files =>
        let '(dfs, w2) := scan ext path notes files [] w1 in
        (Ok (notes, dfs), w2)
    end.

(** The same system with another content of the directory. *)
Definition with_listing (ext : Extern num) (files : list string) : Extern num :=
  mkExtern (λ _, Ok files) (read_csv ext) (read_csv_usecols ext) (Series_str ext).

(** The first line of the notes whose file name equals [file]. *)
Definition first_row (rows : NotesFrame) (file : string)
    : option (nat * (string * string)) :=
  list_find (λ r, r.1 = file) rows.

Definition label_prompt : string := "Provide a short label for this data:  ".

(** Whether the loop asks the user about [file]. *)
Definition asked (ext : Extern num) (rows : NotesFrame) (file : string) : bool :=
  endswith file ".csv"
  && contains (Series_str ext rows.*1) file
  && bool_decide (file ∈ rows.*1).

(** [df] is what [get_sensor_data] makes, under some label, of a [.csv]
    file among [files] that pandas can read. *)
Definition loaded_from (ext : Extern num) (path : string) (files : list string)
    (df : DataFrame num) : Prop :=
  ∃ file label sdata,
    file ∈ files ∧
    endswith file ".csv" = true ∧
    read_csv_usecols ext (path +:+ file) = Ok sdata ∧
    df = map (λ '(t, v, i), Row t v i file label) sdata.

(** Lines 220-221, for one [i]. *)
Definition dfs_indexes_body (dfs : list (DataFrame num)) (istart iend : Z)
    (i : nat) : M (World num) () :=
  if (Z.of_nat i >=? istart) && (Z.of_nat i <=? iend) then
    let* df := lift (getitem dfs (Z.of_nat i)) in
    let* l := lift (label0 df) in
    let* df' := lift (getitem dfs (Z.of_nat i)) in
    let* f := lift (fname0 df') in
    print [PInt (Z.of_nat i); PStr "  "; PStr l; PStr "  "; PStr f]
  else ret ().

(** Lines 217-221. *)
Definition dfs_indexes (dfs : list (DataFrame num)) (istart iend : Z)
    : M (World num) () :=
  let iend := if (iend =? 0) || (iend <? istart)
              then Z.of_nat (length dfs) else iend in
  for_each (dfs_indexes_body dfs istart iend) (range (length dfs)).

(** The line that shows record [i], when the record has a first line to
    take the label and the file name from. *)
Definition index_line (i : nat) (df : DataFrame num) : option event :=
  match df with
  | [] => None
  | r :: _ =>
      Some (Print [PInt (Z.of_nat i); PStr "  "; PStr (col_label r);
                   PStr "  "; PStr (col_fname r)])
  end.

(** The lines for the records at the given indices, in that order. *)
Definition listing (dfs : list (DataFrame num)) (indices : list nat) : list event :=
  omap (λ i, dfs !! i ≫= index_line i) indices.

(** The world after more output. *)
Definition printed (w : World num) (out : list event) : World num :=
  mkWorld (stdin w) (stdout w ++ out) (hdf w).

(** The defaults of [istart] and [iend]. *)
Definition istart_default : Z := 0.
Definition iend_default : Z := 0.

(** The container in file [filename]; empty when there is no such file. *)
Definition store_of (w : World num) (filename : string)
    : gmap string (DataFrame num) :=
  default ∅ (hdf w !! filename).

(** The line that reports the saving of [df]. *)
Definition saved_line (filename : string) (df : DataFrame num) : option event :=
  match df with
  | [] => None
  | r :: _ =>
      Some (Print [PStr ("Saved " +:+ col_label r +:+ " dataframe to " +:+ filename)])
  end.

End Acquisition.

(** ** The layout of a short Series *)

Fixpoint spaces (n : nat) : string :=
  match n with
  | O => ""
  | S k => " " +:+ spaces k
  end.

Definition ljust (width : nat) (s : string) : string :=
  s +:+ spaces (width - String.length s).

Definition rjust (width : nat) (s : string) : string :=
  spaces (width - String.length s) +:+ s.

Definition newline : string := "
".

(** [str] of a Series named [filename] as pandas lays it out when it has
    at most 60 entries of at most 50 characters: the index flush left, four
    spaces, the entry flush right, and the name and type in the last
    line. *)
Definition Series_str_short (values : list string) : string :=
  match values with
  | [] => "Series([], Name: filename, dtype: object)"
  | _ =>
      let iw := String.length (pretty (length values - 1)%nat) in
      let vw := max_list (String.length <$> values) in
      String.concat newline
        (imap (λ k x, ljust iw (pretty k) +:+ "    " +:+ rjust vw x) values)
      +:+ newline +:+ "Name: filename, dtype: object"
  end.

(** ** Sample data *)

(** A run of two samples read from file [fname] and labelled [label]. *)
Definition run (fname label : string) : DataFrame Z :=
  [Row 0 (-3) 12 fname label; Row 1 (-3) 13 fname label].

(** A silent terminal, nothing typed, no HDF5 file. *)
Definition quiet : World Z := mkWorld [] [] ∅.

(** Six records, the fourth loaded from a file that holds the header and
    no sample. *)
Definition six_with_gap : list (DataFrame Z) :=
  [run "a.csv" "a"; run "b.csv" "b"; run "c.csv" "c"; [];
   run "e.csv" "e"; run "f.csv" "f"].

Definition six_runs : list (DataFrame Z) :=
  [run "a.csv" "a"; run "b.csv" "b"; run "c.csv" "c"; run "d.csv" "d";
   run "e.csv" "e"; run "f.csv" "f"].

(** Two records, the first loaded from a file without a sample. *)
Definition gap_first : list (DataFrame Z) := [[]; run "b.csv" "b"].

(** A directory [data/] with two runs, the notes and a text file; the
    notes know the first run only. *)
Definition bench_notes : NotesFrame :=
  [("2018_2_16_10_3_48.csv", " First -3V bias test with no ops")].

Definition bench : Extern Z :=
  mkExtern
    (λ path, if String.eqb path "data/"
             then Ok ["2018_2_16_10_3_48.csv"; "8.csv"; "notes.csv"; "readme.txt"]
             else Raise OSError)
    (λ path, if String.eqb path "data/notes.csv" then Ok bench_notes
             else Raise OSError)
    (λ path, if String.eqb path "data/2018_2_16_10_3_48.csv" then Ok [(0, -3, 12)]
             else if String.eqb path "data/8.csv" then Ok [(0, -3, 7)]
             else Raise ValueError)
    Series_str_short.

(** A directory [fresh/] with one run and no notes file. *)
Definition fresh : Extern Z :=
  mkExtern
    (λ path, if String.eqb path "fresh/" then Ok ["run_003.csv"] else Raise OSError)
    (λ path, Raise OSError)
    (λ path, if String.eqb path "fresh/run_003.csv" then Ok [(0, -3, 12); (1, -3, 13)]
             else Raise ValueError)
    Series_str_short.

(** The user types the given lines, then closes the keyboard. *)
Definition typing (lines : list string) : World Z := mkWorld lines [] ∅.

(** Three runs, the first and the last under the same label. *)
Definition colliding : list (DataFrame Z) :=
  [run "a.csv" "bias"; run "b.csv" "dark"; run "c.csv" "bias"].

(** ** Index lists for the whole collection *)

(** [list(range(len))]: every index, front to back. *)
Definition front_to_back (len : nat) : list Z := Z.of_nat <$> range len.

(** [-1, -2, ..., -len]: every index, counted from the end. *)
Definition back_to_front (len : nat) : list Z :=
  (λ k : nat, -1 - Z.of_nat k) <$> range len.

(** The value of [iend] after lines 217-218. *)
Definition effective_iend {num} (dfs : list (DataFrame num)) (istart iend : Z) : Z :=
  if (iend =? 0) || (iend <? istart) then Z.of_nat (length dfs) else iend.

(** The indices from [istart] through [iend] that a collection of [len]
    records has. *)
Definition shown_indices (len : nat) (istart iend : Z) : list nat :=
  seq (Z.to_nat istart) (len `min` Z.to_nat (iend + 1) - Z.to_nat istart).

(** ** What a run of the builder amounts to *)

(** The record that [file] gives under [label], if pandas can read it. *)
Definition load_with {num} (ext : Extern num) (path : string)
    (source : string * string) : option (DataFrame num) :=
  match get_sensor_data ext path source.1 source.2 with
  | Ok df => Some df
  | Raise _ => None
  end.

(** What the terminal shows when the user is asked about [file]. *)
Definition dialogue (rows : NotesFrame) (file : string) : list event :=
  match first_row rows file with
  | Some (_, (_, d)) =>
      [Print [PStr (newline +:+ file)]; Print [PStr d]; Input label_prompt]
  | None => []
  end.

(** The name of a data file. *)
Definition is_csv (file : string) : bool := endswith file ".csv".

(** A directory [field/] with two runs; the notes know [run_003.csv]. *)
Definition field_notes : NotesFrame := [("run_003.csv", " field test")].

Definition field : Extern Z :=
  mkExtern
    (λ path, if String.eqb path "field/"
             then Ok ["run_003.csv"; "run_03.csv"; "notes.csv"]
             else Raise OSError)
    (λ path, if String.eqb path "field/notes.csv" then Ok field_notes
             else Raise OSError)
    (λ path, if String.eqb path "field/run_003.csv" then Ok [(0, -3, 12)]
             else if String.eqb path "field/run_03.csv" then Ok [(0, -3, 7)]
             else Raise ValueError)
    Series_str_short.

(** ** What a loaded record holds *)

(** The three measured columns of a frame, line by line. *)
Definition samples {num} (df : DataFrame num) : list (num * num * num) :=
  map (λ r, (col_t_s r, col_v r, col_i r)) df.

(** ** Plotting *)

(** What the code asks of numbers: the test [a == b], the product
    [a * b], and the constants 1, 1e6 and 1e9. *)
Record Numeric (num : Type) : Type := mkNumeric {
  num_eqb : num → num → bool;
  num_mul : num → num → num;
  num_1 : num;
  num_1e6 : num;
  num_1e9 : num
}.
Arguments mkNumeric {num} _ _ _ _ _.
Arguments num_eqb {num} _ _ _.
Arguments num_mul {num} _ _ _.
Arguments num_1 {num} _.
Arguments num_1e6 {num} _.
Arguments num_1e9 {num} _.

Module Plt.

(** An entry of a column: a number or a string. *)
Inductive cell (num : Type) : Type :=
  | CNum (x : num)
  | CStr (s : string).
Arguments CNum {num} x.
Arguments CStr {num} s.

(** What reaches the terminal and the current figure, in the order of the
    calls: the NOTE of line 179, [plt.plot] with its two series, its format
    string if any and its legend label, and the four calls of lines
    193-196. *)
Inductive call (num : Type) : Type :=
  | Note (yfactor : num)
  | Plot (x y : list (cell num)) (fmt : option string) (label : string)
  | Ylabel (s : string)
  | Xlabel (s : string)
  | Legend (loc : string) (fontsize : Z)
  | ShowFigure.
Arguments Note {num} yfactor.
Arguments Plot {num} x y fmt label.
Arguments Ylabel {num} s.
Arguments Xlabel {num} s.
Arguments Legend {num} loc fontsize.
Arguments ShowFigure {num}.

(** What [plot_dfs] can raise: the exceptions met so far, and TypeError. *)
Inductive raised : Type :=
  | Py (e : exn)
  | TypeError.

Inductive outcome (A : Type) : Type :=
  | Done (a : A)
  | Failed (e : raised).
Arguments Done {A} a.
Arguments Failed {A} e.

(** An element of the list the loop of [plot_dfs] runs over: a data frame,
    or, after lines 164-167, the whole list of data frames. *)
Inductive item (num : Type) : Type :=
  | OneFrame (df : DataFrame num)
  | AllFrames (dfs : list (DataFrame num)).
Arguments OneFrame {num} df.
Arguments AllFrames {num} dfs.

Section Plotting.

Context {num : Type} (N : Numeric num).

(** The state of a call: the local dictionary [label] and the calls made
    so far. *)
Definition state : Type := gmap string string * list (call num).

Definition P (A : Type) : Type := state → outcome A * state.

Definition ret {A} (a : A) : P A := λ s, (Done a, s).

Definition bind {A B} (m : P A) (k : A → P B) : P B :=
  λ s, match m s with
       | (Done a, s') => k a s'
       | (Failed e, s') => (Failed e, s')
       end.

Definition lift {A} (r : res A) : P A :=
  λ s, match r with
       | Ok a => (Done a, s)
       | Raise e => (Failed (Py e), s)
       end.

Definition fail {A} (e : raised) : P A := λ s, (Failed e, s).

(** [label[key] = value] *)
Definition set_label (key value : string) : P () :=
  λ s, (Done (), (<[key := value]> s.1, s.2)).

(** [label[key]] *)
Definition get_label (key : string) : P string :=
  λ s, match s.1 !! key with
       | Some value => (Done value, s)
       | None => (Failed (Py KeyError), s)
       end.

(** A [print] or a call of [plt]. *)
Definition emit (c : call num) : P () := λ s, (Done (), (s.1, s.2 ++ [c])).

Declare Scope plt_scope.
Notation "'let*' x := m 'in' k" := (bind m (λ x, k))
  (at level 10, x name, m at level 100, k at level 200) : plt_scope.
Local Open Scope plt_scope.

Fixpoint for_each {X} (body : X → P ()) (xs : list X) : P () :=
  match xs with
  | [] => ret ()
  | x :: rest => let* _ := body x in for_each body rest
  end.

(** The entries of the column [name] of a frame. *)
Definition series (df : DataFrame num) (name : string) : list (cell num) :=
  if String.eqb name "t_s" then map (λ r, CNum (col_t_s r)) df
  else if String.eqb name "v" then map (λ r, CNum (col_v r)) df
  else if String.eqb name "i" then map (λ r, CNum (col_i r)) df
  else if String.eqb name "fname" then map (λ r, CStr (col_fname r)) df
  else if String.eqb name "label" then map (λ r, CStr (col_label r)) df
  else [].

Definition is_column (name : string) : bool :=
  String.eqb name "t_s" || String.eqb name "v" || String.eqb name "i"
  || String.eqb name "fname" || String.eqb name "label".

(** [x[name][:]]: a column of a frame; a list takes no string subscript. *)
Definition subscript (x : item num) (name : string) : P (list (cell num)) :=
  match x with
  | OneFrame df =>
      if is_column name then ret (series df name) else fail (Py KeyError)
  | AllFrames _ => fail TypeError
  end.

(** [x.label[0]]: a list has no attribute [label]. *)
Definition label_of (x : item num) : P string :=
  match x with
  | OneFrame df => lift (label0 df)
  | AllFrames _ => fail (Py AttributeError)
  end.

(** [series * yfactor], entry by entry.  The series multiplied is always
    the column [i] (line 171), whose entries are numbers; the case of a
    string is never met. *)
Fixpoint times (ys : list (cell num)) (yfactor : num) : P (list (cell num)) :=
  match ys with
  | [] => ret []
  | CNum y :: rest =>
      let* rest' := times rest yfactor in
      ret (CNum (num_mul N y yfactor) :: rest')
  | CStr _ :: _ => fail TypeError
  end.

(** [plt.plot(x, y, label=l)] when [points] is [False], and
    [plt.plot(x, y, '-s', label=l)] otherwise. *)
Definition plot (points : bool) (x y : list (cell num)) (l : string) : P () :=
  emit (Plot x y (if points then Some "-s" else None) l).

(** Lines 171-192, for one [i]. *)
Definition plot_body (items : list (item num)) (xdata ydata : string)
    (yfactor : num) (points : bool) (i : nat) : P () :=
  if String.eqb ydata "i" then
    let* _ :=
      (if num_eqb N yfactor (num_1 N) then set_label "i" "I [A]"
       else if num_eqb N yfactor (num_1e6 N) then set_label "i" "I [$\mu$A]"
       else if num_eqb N yfactor (num_1e9 N) then set_label "i" "I [nA]"
       else emit (Note yfactor)) in
    let* dx := lift (getitem items (Z.of_nat i)) in
    let* x := subscript dx xdata in
    let* dy := lift (getitem items (Z.of_nat i)) in
    let* y := subscript dy ydata in
    let* scaled := times y yfactor in
    let* dl := lift (getitem items (Z.of_nat i)) in
    let* l := label_of dl in
    plot points x scaled l
  else
    let* dx := lift (getitem items (Z.of_nat i)) in
    let* x := subscript dx xdata in
    let* dy := lift (getitem items (Z.of_nat i)) in
    let* y := subscript dy ydata in
    let* dl := lift (getitem items (Z.of_nat i)) in
    let* l := label_of dl in
    plot points x y l.

(** Lines 162-196.  The dictionary is local to the call; the calls made
    are what remains. *)
Definition plot_dfs (dfs : list (DataFrame num)) (xdata ydata : string)
    (yfactor : num) (points : bool) (before : list (call num))
    : outcome () * list (call num) :=
  let label : gmap string string :=
    <["t_s" := "Time [s]"]> (<["v" := "V [V]"]> ∅) in
  let '(l, items) :=
    if (50 <? length dfs)%nat
    then (range 1, [AllFrames dfs])
    else (range (length dfs), OneFrame <$> dfs) in
  let run :=
    let* _ := for_each (plot_body items xdata ydata yfactor points) l in
    let* ly := get_label ydata in
    let* _ := emit (Ylabel ly) in
    let* lx := get_label xdata in
    let* _ := emit (Xlabel lx) in
    let* _ := emit (Legend "best" 10) in
    emit ShowFigure in
  let '(r, (_, after)) := run (label, before) in
  (r, after).

(** The defaults of [xdata], [ydata], [yfactor] and [points]. *)
Definition xdata_default : string := "t_s".
Definition ydata_default : string := "i".
Definition yfactor_default : num := num_1 N.
Definition points_default : bool := false.

(** The unit the y axis gets for a factor, if the code knows one. *)
Definition unit_of (yfactor : num) : option string :=
  if num_eqb N yfactor (num_1 N) then Some "I [A]"
  else if num_eqb N yfactor (num_1e6 N) then Some "I [$\mu$A]"
  else if num_eqb N yfactor (num_1e9 N) then Some "I [nA]"
  else None.

(** The entries of a numeric column times [yfactor]. *)
Definition scaled (ys : list (cell num)) (yfactor : num) : list (cell num) :=
  map (λ c, match c with
            | CNum y => CNum (num_mul N y yfactor)
            | CStr s => CStr s
            end) ys.

(** The label of the first line of a frame that has one. *)
Definition first_label (df : DataFrame num) : string :=
  match df with
  | [] => ""
  | r :: _ => col_label r
  end.

(** The line drawn for a record when the current is on the y axis, and
    when another column is. *)
Definition current_line (xdata : string) (yfactor : num) (points : bool)
    (df : DataFrame num) : call num :=
  Plot (series df xdata) (scaled (series df "i") yfactor)
    (if points then Some "-s" else None) (first_label df).

Definition plain_line (xdata ydata : string) (points : bool)
    (df : DataFrame num) : call num :=
  Plot (series df xdata) (series df ydata)
    (if points then Some "-s" else None) (first_label df).

(** What one turn of the loop adds when the current is on the y axis: the
    NOTE if the factor has no unit, and the line. *)
Definition current_calls (xdata : string) (yfactor : num) (points : bool)
    (df : DataFrame num) : list (call num) :=
  match unit_of yfactor with
  | Some _ => [current_line xdata yfactor points df]
  | None => [Note yfactor; current_line xdata yfactor points df]
  end.

(** The text of the axis for the columns [t_s] and [v]. *)
Definition axis_text (name : string) : string :=
  if String.eqb name "t_s" then "Time [s]" else "V [V]".

End Plotting.

End Plt.

(** Whole numbers as the numbers of the samples. *)
Definition whole_numbers : Numeric Z :=
  mkNumeric Z.eqb Z.mul 1 1000000 1000000000.

(** The record of a file that is loaded without a question, under the
    default label: a file whose name occurs in the text of the notes'
    file names is not. *)
Definition load_unasked {num} (ext : Extern num) (path : string)
    (rows : NotesFrame) (file : string) : option (DataFrame num) :=
  if contains (Series_str ext rows.*1) file then None
  else load_with ext path (file, default_label).

(** A data file whose name occurs in the text of the notes' file names. *)
Definition looked_up {num} (ext : Extern num) (rows : NotesFrame)
    (file : string) : bool :=
  is_csv file && contains (Series_str ext rows.*1) file.

(** ** HDF5 files *)

Module Hdf.

(** What saving and reloading can raise: the exceptions met so far, and
    the NodeError of PyTables. *)
Inductive raised : Type :=
  | Py (e : exn)
  | NodeError.

Inductive outcome (A : Type) : Type :=
  | Done (a : A)
  | Failed (e : raised).
Arguments Done {A} a.
Arguments Failed {A} e.

(** What the code asks of pandas when it stores a frame: [put store key df]
    is [store.put(key, df)] on the content [store] of a file opened for
    appending, with the outcome and the content afterwards.  How a key
    names a node of the file - whether it is taken, which node it
    denotes, what is removed to make room - is decided by pandas and
    PyTables, not by this code. *)
Record Pandas (num : Type) : Type := mkPandas {
  put : gmap string (DataFrame num) → string → DataFrame num
        → outcome () * gmap string (DataFrame num)
}.
Arguments mkPandas {num} _.
Arguments put {num} _ _ _ _.

(** The world, and the files that an [HDFStore] object which was never
    closed still holds open for appending. *)
Record Session (num : Type) : Type := mkSession {
  world : World num;
  held : list string
}.
Arguments mkSession {num} _ _.
Arguments world {num} _.
Arguments held {num} _.

Section Persistence.

Context {num : Type} (P : Pandas num).

Definition H (A : Type) : Type := Session num → outcome A * Session num.

Definition ret {A} (a : A) : H A := λ s, (Done a, s).

Definition bind {A B} (m : H A) (k : A → H B) : H B :=
  λ s, match m s with
       | (Done a, s') => k a s'
       | (Failed e, s') => (Failed e, s')
       end.

Definition lift {A} (r : res A) : H A :=
  λ s, match r with
       | Ok a => (Done a, s)
       | Raise e => (Failed (Py e), s)
       end.

Declare Scope hdf_scope.
Notation "'let*' x := m 'in' k" := (bind m (λ x, k))
  (at level 10, x name, m at level 100, k at level 200) : hdf_scope.
Local Open Scope hdf_scope.

Fixpoint for_each {X} (body : X → H ()) (xs : list X) : H () :=
  match xs with
  | [] => ret ()
  | x :: rest => let* _ := body x in for_each body rest
  end.

(** [print(a, b, ...)] *)
Definition print (args : list pyval) : H () :=
  λ s, (Done (), mkSession (printed (world s) [Print args]) (held s)).

(** The session with the content [store] in file [filename]. *)
Definition with_store (s : Session num) (filename : string)
    (store : gmap string (DataFrame num)) : Session num :=
  mkSession
    (mkWorld (stdin (world s)) (stdout (world s))
       (<[filename := store]> (hdf (world s))))
    (held s).

(** [df.to_hdf(filename, key)]: opens the file for appending, creating it
    if need be, puts [df] under [key] and closes the file, also when the
    put fails.  Opening for appending goes together with the handles
    that hold the file open for appending. *)
Definition to_hdf (df : DataFrame num) (filename key : string) : H () :=
  λ s, let '(r, store) := put P (store_of (world s) filename) key df in
       (r, with_store s filename store).

(** Lines 236-237, for one [i]. *)
Definition save_body (dfs : list (DataFrame num)) (filename : string) (i : nat)
    : H () :=
  let* df := lift (getitem dfs (Z.of_nat i)) in
  let* key := lift (label0 df) in
  let* _ := to_hdf df filename key in
  let* df' := lift (getitem dfs (Z.of_nat i)) in
  let* l := lift (label0 df') in
  print [PStr ("Saved " +:+ l +:+ " dataframe to " +:+ filename)].

(** Lines 235-237. *)
Definition save_dfs (dfs : list (DataFrame num)) (filename : string) : H () :=
  for_each (save_body dfs filename) (range (length dfs)).

(** [pd.HDFStore(filename)]: opens the file for appending, creating it if
    need be.  Nothing closes the object, so the file stays held open. *)
Definition HDFStore (filename : string) : H (gmap string (DataFrame num)) :=
  λ s, let store := store_of (world s) filename in
       (Done store,
        mkSession (world (with_store s filename store)) (filename :: held s)).

(** [store.keys()], in the order of the container. *)
Definition keys (store : gmap string (DataFrame num)) : list string :=
  (map_to_list store).*1.

(** [pd.read_hdf(filename, key=key)]: opens the file read-only, which
    PyTables refuses with ValueError while the file is held open for
    appending; otherwise reads the frame under [key] and closes the
    file. *)
Definition read_hdf (filename key : string) : H (DataFrame num) :=
  λ s, if bool_decide (filename ∈ held s) then (Failed (Py ValueError), s)
       else match hdf (world s) !! filename with
            | None => (Failed (Py OSError), s)
            | Some store =>
                match store !! key with
                | Some df => (Done df, s)
                | None => (Failed (Py KeyError), s)
                end
            end.

(** Lines 246-247: the loop over the keys. *)
Fixpoint read_keys (filename : string) (ks : list string)
    (dfs : list (DataFrame num)) : H (list (DataFrame num)) :=
  match ks with
  | [] => ret dfs
  | key :: rest =>
      let* df := read_hdf filename key in
      read_keys filename rest (dfs ++ [df])
  end.

(** Lines 244-248. *)
Definition read_ivs (filename : string) : H (list (DataFrame num)) :=
  let* store := HDFStore filename in
  read_keys filename (keys store) [].

(** *** Labels that pandas takes as they are *)

(** The key under which [store.keys()] reports a frame put under a label
    without ['/']. *)
Definition node (label : string) : string := "/" +:+ label.

Definition no_slash (label : string) : bool := negb (contains label "/").

(** A container without nested groups: every key is the node of a label
    without ['/']. *)
Definition flat (store : gmap string (DataFrame num)) : Prop :=
  ∀ key, is_Some (store !! key) → ∃ l, key = node l ∧ no_slash l = true.

(** Pandas takes the label: on a container without nested groups, a put
    under it succeeds and stores the frame under the node of the label,
    in place of what was there, leaving the other keys alone. *)
Definition accepts (label : string) : Prop :=
  ∀ store df, flat store → put P store label df = (Done (), <[node label := df]> store).

(** A record that [save_dfs] can store: it has a first line, whose label
    has no ['/'] and is one that pandas takes. *)
Definition storable (df : DataFrame num) : Prop :=
  ∃ l, label0 df = Ok l ∧ no_slash l = true ∧ accepts l.

(** The container after the records of [dfs] were put into [store] one
    after the other, each under the node of its label. *)
Definition written (store : gmap string (DataFrame num))
    (dfs : list (DataFrame num)) : gmap string (DataFrame num) :=
  foldl (λ st df, match label0 df with
                  | Ok l => <[node l := df]> st
                  | Raise _ => st
                  end) store dfs.

(** Whether the record is put under [key]: the key is the node of its
    label. *)
Definition stored_under (key : string) (df : DataFrame num) : bool :=
  match label0 df with
  | Ok l => String.eqb (node l) key
  | Raise _ => false
  end.

(** The last record of [dfs] that is put under [key]. *)
Definition stored_last (key : string) (dfs : list (DataFrame num))
    : option (DataFrame num) :=
  foldl (λ found df, if stored_under key df then Some df else found) None dfs.

End Persistence.

End Hdf.

(** A pandas for the examples.  It takes a label without ['/'] by storing
    the frame under the node of the label, drops one leading ['/'], and
    raises NodeError on the empty label and on ['/']; a label with a
    ['/'] further in is stored under the node of the whole label. *)
Definition sample_pandas : Hdf.Pandas Z :=
  Hdf.mkPandas (λ store key df,
    let label := if String.prefix "/" key
                 then String.substring 1 (String.length key - 1) key
                 else key in
    if String.eqb label "" then (Hdf.Failed Hdf.NodeError, store)
    else (Hdf.Done (), <[Hdf.node label := df]> store)).

(** Nothing typed, nothing printed, no HDF5 file, no file held open. *)
Definition fresh_session : Hdf.Session Z := Hdf.mkSession quiet [].

(** A session in which the file [tests.h5] already holds a record under
    the label 'old', and no file is held open. *)
Definition archive : Hdf.Session Z :=
  Hdf.mkSession
    (mkWorld [] [] {[ "tests.h5" := {[ "/old" := run "o.csv" "old" ]} ]}) [].

(** A run whose label is the empty line: the user only pressed return. *)
Definition unnamed : DataFrame Z := run "b.csv" "".

(** * Properties *)

(** ** Python subscripts *)

Section SliceFacts.

Context {A : Type}.
Implicit Types (dfs : list A) (n : list Z).

Lemma getitem_in_range dfs j :
  in_range (length dfs) j →
  ∃ x, getitem dfs j = Ok x ∧ dfs !! position (length dfs) j = Some x.
Proof.
  unfold in_range, getitem, position. intros Hj.
  set (j' := if j <? 0 then j + Z.of_nat (length dfs) else j).
  assert (Hj' : 0 ≤ j' < Z.of_nat (length dfs)).
  { subst j'. destruct (Z.ltb_spec j 0); lia. }
  destruct (Z.ltb_spec j' 0); [lia|].
  destruct (Z.leb_spec (Z.of_nat (length dfs)) j'); [lia|]. simpl.
  destruct (lookup_lt_is_Some_2 dfs (Z.to_nat j')) as [x Hx]; [lia|].
  exists x. by rewrite Hx.
Qed.

Lemma getitem_out_of_range dfs j :
  ¬ in_range (length dfs) j → getitem dfs j = Raise IndexError.
Proof.
  unfold in_range, getitem. intros Hj.
  set (j' := if j <? 0 then j + Z.of_nat (length dfs) else j).
  assert (Hj' : j' < 0 ∨ Z.of_nat (length dfs) ≤ j').
  { subst j'. destruct (Z.ltb_spec j 0); lia. }
  destruct (Z.ltb_spec j' 0); [done|].
  destruct (Z.leb_spec (Z.of_nat (length dfs)) j'); [done|lia].
Qed.

Lemma getitem_range (X : Type) (l : list X) (k : nat) (x : X) :
  l !! k = Some x → getitem l (Z.of_nat k) = Ok x.
Proof.
  intros Hk. pose proof (lookup_lt_Some _ _ _ Hk) as Hlt.
  unfold getitem.
  destruct (Z.ltb_spec (Z.of_nat k) 0); [lia|].
  destruct (Z.ltb_spec (Z.of_nat k) 0); [lia|].
  destruct (Z.leb_spec (Z.of_nat (length l)) (Z.of_nat k)); [lia|]. simpl.
  by rewrite Nat2Z.id, Hk.
Qed.

Lemma selects_total dfs n :
  Forall (in_range (length dfs)) n → ∃ xs, Forall2 (selects dfs) n xs.
Proof.
  induction 1 as [|j n Hj _ [xs IH]]; [by exists []|].
  destruct (getitem_in_range dfs j Hj) as (x & _ & Hx).
  exists (x :: xs). constructor; [by split|done].
Qed.

Lemma slice_loop_ok dfs n m : ∀ k acc xs,
  length n = (k + m)%nat →
  Forall2 (selects dfs) (drop k n) xs →
  for_each (slice_body dfs n) (seq k m) acc = (Ok (), acc ++ xs).
Proof.
  induction m as [|m IH]; intros k acc xs Hlen Hsel.
  - rewrite drop_ge in Hsel by lia. apply Forall2_nil_inv_l in Hsel as ->.
    simpl. unfold ret. by rewrite app_nil_r.
  - destruct (lookup_lt_is_Some_2 n k) as [j Hj]; [lia|].
    rewrite (drop_S _ _ _ Hj) in Hsel.
    apply Forall2_cons_inv_l in Hsel as (x & xs' & [Hin Hx] & Hrest & ->).
    destruct (getitem_in_range dfs j Hin) as (x' & Hget & Hx').
    assert (x' = x) as -> by congruence.
    simpl. unfold bind at 1, slice_body at 1, bind, lift, modify.
    rewrite (getitem_range _ _ _ _ Hj), Hget.
    rewrite (IH (S k) (acc ++ [x]) xs') by (done || lia).
    by rewrite <- app_assoc.
Qed.

Lemma slice_loop_raise dfs n m : ∀ k acc,
  length n = (k + m)%nat →
  Exists (λ j, ¬ in_range (length dfs) j) (drop k n) →
  ∃ acc', for_each (slice_body dfs n) (seq k m) acc = (Raise IndexError, acc').
Proof.
  induction m as [|m IH]; intros k acc Hlen Hex.
  - rewrite drop_ge in Hex by lia. by apply Exists_nil in Hex.
  - destruct (lookup_lt_is_Some_2 n k) as [j Hj]; [lia|].
    rewrite (drop_S _ _ _ Hj) in Hex.
    simpl. unfold bind at 1, slice_body at 1, bind, lift, modify.
    rewrite (getitem_range _ _ _ _ Hj).
    destruct (decide (in_range (length dfs) j)) as [Hin|Hout].
    + destruct (getitem_in_range dfs j Hin) as (x & -> & _).
      apply Exists_cons in Hex as [?|Hex]; [done|].
      apply (IH (S k)); [lia|done].
    + rewrite (getitem_out_of_range dfs j Hout). by eexists.
Qed.

Lemma slice_dfs_ok dfs n xs :
  Forall2 (selects dfs) n xs → slice_dfs dfs n = Ok xs.
Proof.
  intros Hsel. unfold slice_dfs, range.
  by rewrite (slice_loop_ok dfs n (length n) 0%nat [] xs).
Qed.

Lemma slice_dfs_raise dfs n :
  Exists (λ j, ¬ in_range (length dfs) j) n → slice_dfs dfs n = Raise IndexError.
Proof.
  intros Hex. unfold slice_dfs, range.
  destruct (slice_loop_raise dfs n (length n) 0%nat []) as [acc' ->]; done.
Qed.

End SliceFacts.

Lemma in_range_cases (len : nat) (n : list Z) :
  Forall (in_range len) n ∨ Exists (λ j, ¬ in_range len j) n.
Proof.
  induction n as [|j n [IH|IH]].
  - left. constructor.
  - destruct (decide (in_range len j)); [left|right]; by constructor.
  - right. by apply Exists_cons_tl.
Qed.

Lemma slice_dfs_inv {A} (dfs : list A) (n : list Z) (newdfs : list A) :
  slice_dfs dfs n = Ok newdfs → Forall2 (selects dfs) n newdfs.
Proof.
  intros Hok. destruct (in_range_cases (length dfs) n) as [Hall|Hex].
  - destruct (selects_total dfs n Hall) as [xs Hxs].
    rewrite (slice_dfs_ok dfs n xs Hxs) in Hok. congruence.
  - rewrite (slice_dfs_raise dfs n Hex) in Hok. discriminate.
Qed.

(** C2.  When every subscript in [n] is one Python accepts on [dfs],
    [slice_dfs dfs n] returns a list as long as [n] whose k-th element is
    the very element [dfs[n[k]]]; nothing is asked of [n] beyond that, so
    subscripts may repeat and come in any order. *)
Theorem slice_dfs_in_range {A} (dfs : list A) (n : list Z) :
  Forall (in_range (length dfs)) n →
  ∃ newdfs,
    slice_dfs dfs n = Ok newdfs ∧
    length newdfs = length n ∧
    ∀ k j, n !! k = Some j →
      (∃ x, newdfs !! k = Some x ∧ getitem dfs j = Ok x) ∧
      (0 ≤ j → newdfs !! k = dfs !! Z.to_nat j).
Proof.
  intros Hall. destruct (selects_total dfs n Hall) as [xs Hxs].
  exists xs. split; [by apply slice_dfs_ok|].
  split; [symmetry; by eapply Forall2_length|].
  intros k j Hk.
  destruct (Forall2_lookup_l _ _ _ _ _ Hxs Hk) as (x & Hx & Hin & Hpos).
  destruct (getitem_in_range dfs j Hin) as (x' & Hget & Hpos').
  split.
  - exists x. split; [done|congruence].
  - intros Hj. rewrite Hx, <- Hpos. unfold position.
    by destruct (Z.ltb_spec j 0); [lia|].
Qed.

Lemma slice_dfs_in_range_witness :
  ∃ newdfs,
    slice_dfs ["r0"; "r1"; "r2"] [2; 0; 2; 1; 0] = Ok newdfs ∧
    length newdfs = 5%nat ∧
    ∀ k j, [2; 0; 2; 1; 0] !! k = Some j →
      (∃ x, newdfs !! k = Some x ∧ getitem ["r0"; "r1"; "r2"] j = Ok x) ∧
      (0 ≤ j → newdfs !! k = ["r0"; "r1"; "r2"] !! Z.to_nat j).
Proof.
  apply (slice_dfs_in_range ["r0"; "r1"; "r2"] [2; 0; 2; 1; 0]).
  repeat constructor; unfold in_range; simpl; lia.
Defined.

(** C7.  When some subscript in [n] is at or beyond [len(dfs)], or below
    [-len(dfs)], [slice_dfs dfs n] raises IndexError to its caller and
    hands back no list at all. *)
Theorem slice_dfs_out_of_range {A} (dfs : list A) (n : list Z) :
  Exists (λ j, j < - Z.of_nat (length dfs) ∨ Z.of_nat (length dfs) ≤ j) n →
  slice_dfs dfs n = Raise IndexError.
Proof.
  intros Hex. apply slice_dfs_raise.
  eapply Exists_impl; [exact Hex|]. unfold in_range. intros j Hj. simpl in Hj. lia.
Qed.

Lemma slice_dfs_out_of_range_witness :
  slice_dfs ["r0"; "r1"; "r2"] [1; 3; 0] = Raise IndexError.
Proof.
  apply (slice_dfs_out_of_range ["r0"; "r1"; "r2"] [1; 3; 0]).
  apply Exists_cons_tl, Exists_cons_hd. simpl. lia.
Defined.

(** C8.  A subscript [j] with [-len(dfs) <= j < 0] at place [k] of [n] is
    no failure: [dfs[j]] is the element at position [len(dfs) + j], and
    that element stands at place [k] of whatever [slice_dfs dfs n]
    returns.  The call succeeds exactly when every subscript of [n] lies
    in [-len(dfs), len(dfs)). *)
Theorem slice_dfs_negative_index {A} (dfs : list A) (n : list Z) (k : nat) (j : Z) :
  n !! k = Some j →
  - Z.of_nat (length dfs) ≤ j < 0 →
  ∃ x,
    dfs !! Z.to_nat (Z.of_nat (length dfs) + j) = Some x ∧
    getitem dfs j = Ok x ∧
    (∀ newdfs, slice_dfs dfs n = Ok newdfs → newdfs !! k = Some x) ∧
    (is_ok (slice_dfs dfs n) = true ↔
       Forall (λ j', - Z.of_nat (length dfs) ≤ j' < Z.of_nat (length dfs)) n).
Proof.
  intros Hk Hj.
  assert (Hin : in_range (length dfs) j) by (unfold in_range; lia).
  destruct (getitem_in_range dfs j Hin) as (x & Hget & Hpos).
  exists x. split.
  { rewrite <- Hpos. unfold position.
    destruct (Z.ltb_spec j 0); [f_equal; f_equal; lia|lia]. }
  split; [done|]. split.
  - intros newdfs Hok. apply slice_dfs_inv in Hok.
    destruct (Forall2_lookup_l _ _ _ _ _ Hok Hk) as (x' & Hx' & _ & Hpos').
    congruence.
  - split.
    + intros Hok. destruct (in_range_cases (length dfs) n) as [Hall|Hex]; [done|].
      rewrite (slice_dfs_raise dfs n Hex) in Hok. discriminate.
    + intros Hall. destruct (selects_total dfs n Hall) as [xs Hxs].
      by rewrite (slice_dfs_ok dfs n xs Hxs).
Qed.

Lemma slice_dfs_negative_index_witness :
  ∃ x,
    ["r0"; "r1"; "r2"] !! Z.to_nat (3 + -1) = Some x ∧
    getitem ["r0"; "r1"; "r2"] (-1) = Ok x ∧
    (∀ newdfs, slice_dfs ["r0"; "r1"; "r2"] [0; -1; -3] = Ok newdfs →
               newdfs !! 1%nat = Some x) ∧
    (is_ok (slice_dfs ["r0"; "r1"; "r2"] [0; -1; -3]) = true ↔
       Forall (λ j', - 3 ≤ j' < 3) [0; -1; -3]).
Proof.
  apply (slice_dfs_negative_index ["r0"; "r1"; "r2"] [0; -1; -3] 1 (-1)).
  - reflexivity.
  - simpl. lia.
Defined.

(** ** Inspecting a collection *)

Section InspectFacts.

Context {num : Type}.
Implicit Types (w : World num) (df : DataFrame num) (dfs : list (DataFrame num)).

Lemma printed_nil w : printed w [] = w.
Proof. destruct w. unfold printed. simpl. by rewrite app_nil_r. Qed.

Lemma printed_app w out out' : printed (printed w out) out' = printed w (out ++ out').
Proof. unfold printed. simpl. by rewrite app_assoc. Qed.

Lemma dfs_indexes_body_skip dfs istart iend i w :
  ¬ (istart ≤ Z.of_nat i ≤ iend) →
  dfs_indexes_body dfs istart iend i w = (Ok (), w).
Proof.
  intros Hout. unfold dfs_indexes_body.
  destruct (Z.geb_spec (Z.of_nat i) istart); destruct (Z.leb_spec (Z.of_nat i) iend);
    simpl; try reflexivity; lia.
Qed.

Lemma dfs_indexes_body_line dfs istart iend i df e w :
  istart ≤ Z.of_nat i ≤ iend →
  dfs !! i = Some df →
  index_line i df = Some e →
  dfs_indexes_body dfs istart iend i w = (Ok (), printed w [e]).
Proof.
  intros Hin Hdf He. unfold dfs_indexes_body.
  destruct (Z.geb_spec (Z.of_nat i) istart); [|lia].
  destruct (Z.leb_spec (Z.of_nat i) iend); [|lia]. simpl.
  unfold bind, lift. rewrite (getitem_range _ _ _ _ Hdf).
  destruct df as [|r rows]; [discriminate|]. simpl in *. by inversion He.
Qed.

Lemma dfs_indexes_body_empty dfs istart iend i w :
  istart ≤ Z.of_nat i ≤ iend →
  dfs !! i = Some [] →
  dfs_indexes_body dfs istart iend i w = (Raise KeyError, w).
Proof.
  intros Hin Hdf. unfold dfs_indexes_body.
  destruct (Z.geb_spec (Z.of_nat i) istart); [|lia].
  destruct (Z.leb_spec (Z.of_nat i) iend); [|lia]. simpl.
  unfold bind, lift. by rewrite (getitem_range (DataFrame num) dfs i [] Hdf).
Qed.

Lemma dfs_indexes_loop dfs istart iend m : ∀ k w,
  (k + m ≤ length dfs)%nat →
  (∀ i, (k ≤ i < k + m)%nat → istart ≤ Z.of_nat i ≤ iend → dfs !! i ≠ Some []) →
  for_each (dfs_indexes_body dfs istart iend) (seq k m) w
  = (Ok (), printed w (listing dfs
                         (filter (λ i, istart ≤ Z.of_nat i ≤ iend) (seq k m)))).
Proof.
  induction m as [|m IH]; intros k w Hlen Hrows.
  - simpl. unfold ret. by rewrite printed_nil.
  - simpl. unfold bind at 1.
    destruct (decide (istart ≤ Z.of_nat k ≤ iend)) as [Hin|Hout].
    + destruct (lookup_lt_is_Some_2 dfs k) as [df Hdf]; [lia|].
      destruct df as [|r rows]; [by destruct (Hrows k ltac:(lia) Hin)|].
      erewrite dfs_indexes_body_line; [|done|done|reflexivity].
      rewrite IH by (try lia; intros; apply Hrows; lia).
      rewrite printed_app, filter_cons_True by done.
      unfold listing. simpl. by rewrite Hdf.
    + rewrite dfs_indexes_body_skip by done.
      rewrite IH by (try lia; intros; apply Hrows; lia).
      by rewrite filter_cons_False.
Qed.

(** The replacement of [iend] at lines 217-218. *)
Lemma dfs_indexes_iend_replaced dfs istart iend w :
  iend = 0 ∨ iend < istart →
  dfs_indexes dfs istart iend w
  = for_each (dfs_indexes_body dfs istart (Z.of_nat (length dfs)))
      (range (length dfs)) w.
Proof.
  intros Hiend. unfold dfs_indexes.
  destruct (Z.eqb_spec iend 0); [done|].
  destruct (Z.ltb_spec iend istart); [done|lia].
Qed.

End InspectFacts.

Lemma filter_seq_from (istart : Z) (len m : nat) : ∀ k,
  (k + m ≤ len)%nat →
  filter (λ i : nat, istart ≤ Z.of_nat i ≤ Z.of_nat len) (seq k m)
  = seq (k `max` Z.to_nat istart) (k + m - k `max` Z.to_nat istart).
Proof.
  induction m as [|m IH]; intros k Hlen.
  - simpl. by replace (k + 0 - k `max` Z.to_nat istart)%nat with 0%nat by lia.
  - simpl. destruct (decide (Z.to_nat istart ≤ k)%nat) as [Hle|Hgt].
    + rewrite filter_cons_True by lia. rewrite IH by lia.
      replace (k `max` Z.to_nat istart)%nat with k by lia.
      replace (S k `max` Z.to_nat istart)%nat with (S k) by lia.
      replace (k + S m - k)%nat with (S m) by lia.
      replace (S k + m - S k)%nat with m by lia. done.
    + rewrite filter_cons_False by lia. rewrite IH by lia.
      replace (S k `max` Z.to_nat istart)%nat with (k `max` Z.to_nat istart)%nat by lia.
      f_equal. lia.
Qed.

Lemma listing_length {num} (dfs : list (DataFrame num)) (indices : list nat) :
  Forall (λ i, (i < length dfs)%nat ∧ dfs !! i ≠ Some []) indices →
  length (listing dfs indices) = length indices.
Proof.
  induction 1 as [|i indices [Hlt Hrows] _ IH]; [done|].
  unfold listing in *. cbn [omap list_omap].
  destruct (lookup_lt_is_Some_2 dfs i Hlt) as [df Hdf]. rewrite Hdf.
  destruct df as [|r rows]; [done|]. cbn [mbind option_bind index_line length].
  f_equal. exact IH.
Qed.

(** C6, amended.  On a collection of six records of which those at
    indices 2, 3 and 4 have at least one line, [dfs_indexes] with
    [istart=2] and [iend=4] prints the lines of the records at 2, 3 and 4,
    in this order, and nothing else.  Called with the defaults on a
    collection whose records all have at least one line, it prints one
    line per record, for the whole collection. *)
Theorem dfs_indexes_inclusive_range {num} (six dfs : list (DataFrame num))
    (w : World num) :
  length six = 6%nat →
  (∀ i, (2 ≤ i ≤ 4)%nat → six !! i ≠ Some []) →
  (∀ i, dfs !! i ≠ Some []) →
  (dfs_indexes six 2 4 w = (Ok (), printed w (listing six [2; 3; 4]%nat)) ∧
   length (listing six [2; 3; 4]%nat) = 3%nat) ∧
  (dfs_indexes dfs istart_default iend_default w
   = (Ok (), printed w (listing dfs (range (length dfs)))) ∧
   length (listing dfs (range (length dfs))) = length dfs).
Proof.
  intros Hsix Hrows Hall. split; split.
  - unfold dfs_indexes, range. simpl. rewrite Hsix.
    rewrite dfs_indexes_loop.
    + reflexivity.
    + lia.
    + intros i Hi Hin. apply Hrows. lia.
  - apply listing_length. repeat constructor; try lia; apply Hrows; lia.
  - rewrite dfs_indexes_iend_replaced by (left; reflexivity).
    unfold range. rewrite dfs_indexes_loop by (done || lia).
    rewrite filter_seq_from by lia. unfold istart_default. simpl.
    by rewrite Nat.sub_0_r.
  - rewrite listing_length; [apply length_seq|].
    apply Forall_forall. intros i Hi.
    apply elem_of_seq in Hi. split; [lia|apply Hall].
Qed.

Lemma dfs_indexes_inclusive_range_witness :
  (dfs_indexes six_runs 2 4 quiet
   = (Ok (), printed quiet (listing six_runs [2; 3; 4]%nat)) ∧
   length (listing six_runs [2; 3; 4]%nat) = 3%nat) ∧
  (dfs_indexes six_runs istart_default iend_default quiet
   = (Ok (), printed quiet (listing six_runs (range (length six_runs)))) ∧
   length (listing six_runs (range (length six_runs))) = length six_runs).
Proof.
  apply (dfs_indexes_inclusive_range six_runs six_runs quiet).
  - reflexivity.
  - intros i Hi. do 5 (destruct i as [|i]; [simpl; lia || discriminate|]). lia.
  - intros i. do 6 (destruct i as [|i]; [discriminate|]). discriminate.
Defined.

(** C6 as stated fails on six records of which the fourth has no line:
    the line of record 2 is printed, then [dfs[3].label[0]] raises
    KeyError, and records 3 and 4 are never listed. *)
Lemma dfs_indexes_stops_at_empty_record :
  length six_with_gap = 6%nat ∧
  dfs_indexes six_with_gap 2 4 quiet
  = (Raise KeyError,
     printed quiet [Print [PInt 2; PStr "  "; PStr "c"; PStr "  "; PStr "c.csv"]]).
Proof. split; reflexivity. Qed.

(** C10, amended.  When [iend] is 0 or below [istart], [dfs_indexes]
    behaves as if [iend] were [len(dfs)].  If moreover every record from
    [istart] on has at least one line, it prints one line for each index
    from [istart] (from 0 when [istart] is negative) through the last one,
    so the listing is not empty when [0 <= istart < len(dfs)]. *)
Theorem dfs_indexes_iend_before_istart {num} (dfs : list (DataFrame num))
    (istart iend : Z) (w : World num) :
  iend = 0 ∨ iend < istart →
  (∀ i, istart ≤ Z.of_nat i → dfs !! i ≠ Some []) →
  let through_last := seq (Z.to_nat istart) (length dfs - Z.to_nat istart) in
  dfs_indexes dfs istart iend w = dfs_indexes dfs istart (Z.of_nat (length dfs)) w ∧
  dfs_indexes dfs istart iend w = (Ok (), printed w (listing dfs through_last)) ∧
  length (listing dfs through_last) = (length dfs - Z.to_nat istart)%nat ∧
  (0 ≤ istart < Z.of_nat (length dfs) → listing dfs through_last ≠ []).
Proof.
  intros Hiend Hrows through_last.
  assert (Hlen : length (listing dfs through_last)
                 = (length dfs - Z.to_nat istart)%nat).
  { subst through_last. rewrite listing_length; [apply length_seq|].
    apply Forall_forall. intros i Hi. apply elem_of_seq in Hi.
    split; [lia|apply Hrows; lia]. }
  split; [|split; [|split]].
  - rewrite dfs_indexes_iend_replaced by done.
    unfold dfs_indexes.
    by destruct (_ || _).
  - rewrite dfs_indexes_iend_replaced by done.
    unfold range. rewrite dfs_indexes_loop.
    + by rewrite filter_seq_from.
    + done.
    + intros i _ [Hi _]. by apply Hrows.
  - done.
  - intros Hin Hnil. rewrite Hnil in Hlen. simpl in Hlen. lia.
Qed.

Lemma dfs_indexes_iend_before_istart_witness :
  let through_last := seq (Z.to_nat 4) (length six_with_gap - Z.to_nat 4) in
  dfs_indexes six_with_gap 4 1 quiet
  = dfs_indexes six_with_gap 4 (Z.of_nat (length six_with_gap)) quiet ∧
  dfs_indexes six_with_gap 4 1 quiet
  = (Ok (), printed quiet (listing six_with_gap through_last)) ∧
  length (listing six_with_gap through_last) = (length six_with_gap - Z.to_nat 4)%nat ∧
  (0 ≤ 4 < Z.of_nat (length six_with_gap) →
   listing six_with_gap through_last ≠ []).
Proof.
  apply (dfs_indexes_iend_before_istart six_with_gap 4 1 quiet).
  - right. lia.
  - intros i Hi. do 4 (destruct i as [|i]; [simpl in Hi; lia|]).
    do 2 (destruct i as [|i]; [discriminate|]). discriminate.
Defined.

(** C10 as stated fails when the record at [istart] has no line:
    [iend = -1 < istart = 0] is replaced by [len(dfs)], and
    [dfs[0].label[0]] raises KeyError before anything is listed. *)
Lemma dfs_indexes_lists_nothing :
  0 ≤ 0 < Z.of_nat (length gap_first) ∧
  dfs_indexes gap_first 0 (-1) quiet = (Raise KeyError, quiet) ∧
  stdout (snd (dfs_indexes gap_first 0 (-1) quiet)) = [].
Proof. split; [simpl; lia|]. split; reflexivity. Qed.

(** ** Building a collection *)

Section BuilderFacts.

Context {num : Type}.
Implicit Types (ext : Extern num) (w : World num) (dfs : list (DataFrame num)).
Implicit Types (rows : NotesFrame) (file path : string).

Lemma first_index_of_row rows file n f d :
  first_row rows file = Some (n, (f, d)) →
  first_index rows.*1 file = Ok n ∧ rows.*1 !! n = Some file ∧ rows.*2 !! n = Some d.
Proof.
  unfold first_row, first_index. intros Hfind.
  rewrite list_find_fmap. unfold compose. simpl in *. rewrite Hfind. simpl.
  apply list_find_Some in Hfind as (Hn & Hf & _). simpl in Hf. subst f.
  by rewrite !list_lookup_fmap, Hn.
Qed.

Lemma first_index_no_row rows file :
  first_row rows file = None → first_index rows.*1 file = Raise IndexError.
Proof.
  unfold first_row, first_index. intros Hfind.
  rewrite list_find_fmap. unfold compose. simpl in *. by rewrite Hfind.
Qed.

Lemma first_row_None rows file : first_row rows file = None ↔ file ∉ rows.*1.
Proof.
  unfold first_row. rewrite list_find_None, Forall_forall, list_elem_of_fmap. split.
  - intros Hall ([f d] & -> & Hin). by apply (Hall _ Hin).
  - intros Hno [f d] Hin Heq. apply Hno. exists (f, d). by split.
Qed.

(** Lines 139-146, case by case. *)
Lemma resolve_label_cases ext rows file w :
  resolve_label ext (Notes rows) file w =
  if contains (Series_str ext rows.*1) file then
    match first_row rows file with
    | Some (_, (_, d)) =>
        input label_prompt
          (printed w [Print [PStr (newline +:+ file)]; Print [PStr d]])
    | None => (Raise IndexError, w)
    end
  else (Ok default_label, w).
Proof.
  unfold resolve_label, bind, lift. simpl.
  destruct (contains _ _); [|done].
  destruct (first_row rows file) as [[n [f d]]|] eqn:Hrow.
  - destruct (first_index_of_row _ _ _ _ _ Hrow) as (-> & Hf & Hd).
    unfold at_label. rewrite Hf, Hd. unfold print, modify, printed. simpl.
    by rewrite <- app_assoc.
  - by rewrite (first_index_no_row _ _ Hrow).
Qed.

Lemma prompts_app (out out' : list event) :
  prompts (out ++ out') = (prompts out + prompts out')%nat.
Proof. unfold prompts. by rewrite filter_app, length_app. Qed.

Lemma input_prompts (s : string) w :
  prompts (stdout (snd (input s w))) = S (prompts (stdout w)).
Proof.
  unfold input. destruct (stdin w); simpl; rewrite prompts_app; simpl;
    unfold prompts at 2; simpl; lia.
Qed.

Lemma try_file_stdout ext path notes file w :
  stdout (snd (try_file ext path notes file w))
  = stdout (snd (resolve_label ext notes file w)).
Proof.
  unfold try_file, bind, lift.
  by destruct (resolve_label ext notes file w) as [[label|e] w'].
Qed.

Lemma resolve_label_prompts ext rows file w :
  prompts (stdout (snd (resolve_label ext (Notes rows) file w)))
  = (prompts (stdout w)
     + if contains (Series_str ext rows.*1) file && bool_decide (file ∈ rows.*1)
       then 1 else 0)%nat.
Proof.
  rewrite resolve_label_cases.
  destruct (contains _ _); simpl; [|lia].
  destruct (first_row rows file) as [[n [f d]]|] eqn:Hrow.
  - rewrite input_prompts. simpl. rewrite prompts_app.
    rewrite bool_decide_true; [unfold prompts at 2; simpl; lia|].
    destruct (decide (file ∈ rows.*1)) as [|Hno]; [done|].
    apply first_row_None in Hno. congruence.
  - apply first_row_None in Hrow. rewrite bool_decide_false by done. simpl. lia.
Qed.

Lemma scan_app ext path notes pre : ∀ post dfs w,
  scan ext path notes (pre ++ post) dfs w
  = scan ext path notes post
      (fst (scan ext path notes pre dfs w)) (snd (scan ext path notes pre dfs w)).
Proof.
  induction pre as [|file pre IH]; intros post dfs w; [done|].
  simpl. destruct (endswith file ".csv"); [|apply IH].
  destruct (try_file ext path notes file w) as [[df|e] w']; apply IH.
Qed.

Lemma scan_prompts ext path rows files : ∀ dfs w,
  prompts (stdout (snd (scan ext path (Notes rows) files dfs w)))
  = (prompts (stdout w) + length (filter (λ file, asked ext rows file) files))%nat.
Proof.
  induction files as [|file files IH]; intros dfs w; [simpl; lia|].
  pose proof (try_file_stdout ext path (Notes rows) file w) as Hout.
  pose proof (resolve_label_prompts ext rows file w) as Hp.
  rewrite <- Hout in Hp. clear Hout.
  destruct (asked ext rows file) eqn:Ha.
  - rewrite filter_cons_True by (by rewrite Ha).
    unfold asked in Ha. simpl.
    destruct (endswith file ".csv"); [simpl in Ha|done].
    rewrite Ha in Hp.
    destruct (try_file ext path (Notes rows) file w) as [[df|e] w'];
      simpl in Hp; rewrite IH, Hp; simpl; lia.
  - rewrite filter_cons_False by (rewrite Ha; simpl; tauto).
    unfold asked in Ha. simpl.
    destruct (endswith file ".csv"); [simpl in Ha|apply IH].
    rewrite Ha in Hp.
    destruct (try_file ext path (Notes rows) file w) as [[df|e] w'];
      simpl in Hp; rewrite IH, Hp; simpl; lia.
Qed.

End BuilderFacts.

Lemma get_all_raw_ivs_with_notes {num} (ext : Extern num) path notesname rows files
    (w : World num) :
  get_notes ext (path +:+ notesname) = Ok rows →
  os_listdir ext path = Ok files →
  get_all_raw_ivs ext path notesname w
  = (Ok (Notes rows, fst (scan ext path (Notes rows) files [] w)),
     snd (scan ext path (Notes rows) files [] w)).
Proof.
  intros Hnotes Hdir. unfold get_all_raw_ivs. rewrite Hnotes, Hdir.
  by destruct (scan ext path (Notes rows) files [] w).
Qed.

Lemma scan_with_listing {num} (ext : Extern num) path notes listing' files dfs
    (w : World num) :
  scan (with_listing ext listing') path notes files dfs w
  = scan ext path notes files dfs w.
Proof.
  revert dfs w. induction files as [|file files IH]; intros dfs w; [done|].
  simpl. destruct (endswith file ".csv"); [|apply IH].
  change (try_file (with_listing ext listing') path notes file w)
    with (try_file ext path notes file w).
  destruct (try_file ext path notes file w) as [[df|e] w']; apply IH.
Qed.

(** C4, amended.  With the notes present, the run asks the user as many
    times as the directory has [.csv] files whose name both occurs in the
    text [str(notes.filename)] and equals the file name of some line of the
    notes.  For one file: when the name does not occur in that text the
    label is 'not in notes' and nothing is printed or asked; when it does,
    the first line of the notes with that very file name is the one shown
    before the question, later lines with the same name play no part, and
    without such a line there is no question. *)
Theorem prompt_needs_exact_row {num} (ext : Extern num) path notesname rows files
    (w : World num) :
  get_notes ext (path +:+ notesname) = Ok rows →
  os_listdir ext path = Ok files →
  prompts (stdout (snd (get_all_raw_ivs ext path notesname w)))
  = (prompts (stdout w) + length (filter (λ file, asked ext rows file) files))%nat ∧
  ∀ file (w' : World num),
    resolve_label ext (Notes rows) file w' =
    if contains (Series_str ext rows.*1) file then
      match first_row rows file with
      | Some (_, (_, d)) =>
          input label_prompt
            (printed w' [Print [PStr (newline +:+ file)]; Print [PStr d]])
      | None => (Raise IndexError, w')
      end
    else (Ok default_label, w').
Proof.
  intros Hnotes Hdir. split.
  - rewrite (get_all_raw_ivs_with_notes _ _ _ _ _ _ Hnotes Hdir). simpl.
    apply scan_prompts.
  - intros file w'. apply resolve_label_cases.
Qed.

Lemma prompt_needs_exact_row_witness :
  prompts (stdout (snd (get_all_raw_ivs bench "data/" "notes.csv" (typing ["bias"]))))
  = (prompts (stdout (typing ["bias"]))
     + length (filter (λ file, asked bench bench_notes file)
                 ["2018_2_16_10_3_48.csv"; "8.csv"; "notes.csv"; "readme.txt"]))%nat ∧
  ∀ file (w' : World Z),
    resolve_label bench (Notes bench_notes) file w' =
    if contains (Series_str bench bench_notes.*1) file then
      match first_row bench_notes file with
      | Some (_, (_, d)) =>
          input label_prompt
            (printed w' [Print [PStr (newline +:+ file)]; Print [PStr d]])
      | None => (Raise IndexError, w')
      end
    else (Ok default_label, w').
Proof.
  apply (prompt_needs_exact_row bench "data/" "notes.csv" bench_notes
           ["2018_2_16_10_3_48.csv"; "8.csv"; "notes.csv"; "readme.txt"]
           (typing ["bias"])); reflexivity.
Defined.

(** C4 as stated fails on the file [8.csv] next to notes that know
    [2018_2_16_10_3_48.csv] only: the name occurs in the text of the file
    name column, yet the user is not asked anything. *)
Lemma substring_without_prompt :
  endswith "8.csv" ".csv" = true ∧
  contains (Series_str bench bench_notes.*1) "8.csv" = true ∧
  resolve_label bench (Notes bench_notes) "8.csv" (typing ["bias"])
  = (Raise IndexError, typing ["bias"]) ∧
  prompts (stdout (snd (try_file bench "data/" (Notes bench_notes) "8.csv"
                          (typing ["bias"])))) = 0%nat.
Proof. repeat split; reflexivity. Qed.



Section ScanFacts.

Context {num : Type}.
Implicit Types (ext : Extern num) (w : World num) (dfs : list (DataFrame num)).

Lemma try_file_unreadable ext path notes file e w :
  read_csv_usecols ext (path +:+ file) = Raise e →
  is_ok (fst (try_file ext path notes file w)) = false.
Proof.
  intros Hread. unfold try_file, bind, lift, get_sensor_data. rewrite Hread.
  by destruct (resolve_label ext notes file w) as [[label|e'] w'].
Qed.

Lemma try_file_ok ext path notes file df w w' :
  try_file ext path notes file w = (Ok df, w') →
  ∃ label sdata,
    read_csv_usecols ext (path +:+ file) = Ok sdata ∧
    df = map (λ '(t, v, i), Row t v i file label) sdata.
Proof.
  unfold try_file, bind, lift, get_sensor_data.
  destruct (resolve_label ext notes file w) as [[label|e'] w'']; [|discriminate].
  destruct (read_csv_usecols ext (path +:+ file)) as [sdata|e'']; [|discriminate].
  intros [= <- _]. by exists label, sdata.
Qed.

Lemma scan_loaded ext path notes all files : ∀ dfs w,
  files ⊆ all →
  Forall (loaded_from ext path all) dfs →
  Forall (loaded_from ext path all) (fst (scan ext path notes files dfs w)).
Proof.
  induction files as [|file files IH]; intros dfs w Hsub Hdfs; [done|].
  assert (Hfile : file ∈ all) by (apply Hsub; left).
  assert (Hrest : files ⊆ all) by (intros f Hf; apply Hsub; by right).
  simpl. destruct (endswith file ".csv") eqn:Hcsv; [|by apply IH].
  destruct (try_file ext path notes file w) as [[df|e] w'] eqn:Htry; [|by apply IH].
  apply IH; [done|]. apply Forall_app. split; [done|].
  apply Forall_singleton.
  destruct (try_file_ok _ _ _ _ _ _ _ Htry) as (label & sdata & Hread & ->).
  by exists file, label, sdata.
Qed.

Lemma get_all_raw_ivs_returns ext path notesname files w :
  os_listdir ext path = Ok files →
  is_ok (fst (get_all_raw_ivs ext path notesname w)) = true.
Proof.
  intros Hdir. unfold get_all_raw_ivs. rewrite Hdir.
  destruct (get_notes ext (path +:+ notesname)) as [rows|e];
    by destruct (scan _ _ _ _ _ _).
Qed.

(** Without notes, line 139 raises AttributeError for every file. *)
Lemma try_file_without_notes ext path file w :
  try_file ext path Notes0 file w = (Raise AttributeError, w).
Proof. reflexivity. Qed.

Lemma scan_without_notes ext path files : ∀ dfs w,
  scan ext path Notes0 files dfs w = (dfs, w).
Proof.
  induction files as [|file files IH]; intros dfs w; [done|].
  simpl. destruct (endswith file ".csv"); apply IH.
Qed.

Lemma get_all_raw_ivs_without_notes ext path notesname files e w :
  get_notes ext (path +:+ notesname) = Raise e →
  os_listdir ext path = Ok files →
  get_all_raw_ivs ext path notesname w
  = (Ok (Notes0, []), printed w [Print [PStr "no notes for this directory"]]).
Proof.
  intros Hnotes Hdir. unfold get_all_raw_ivs. rewrite Hnotes, Hdir.
  by rewrite scan_without_notes.
Qed.

End ScanFacts.

(** C5.  A file that [pd.read_csv] cannot read with the three required
    columns never yields a record: the body of the [try] fails on it, the
    loop carries the collection built so far over to the files that
    follow, every record of the result was loaded from one of the other
    files, and the run returns normally. *)
Theorem unreadable_file_is_skipped {num} (ext : Extern num) path notesname
    pre file post e (w : World num) :
  read_csv_usecols ext (path +:+ file) = Raise e →
  (∀ notes w', is_ok (fst (try_file ext path notes file w')) = false) ∧
  (∀ notes dfs w',
     let after_pre := scan ext path notes pre dfs w' in
     scan ext path notes (pre ++ file :: post) dfs w'
     = scan ext path notes post (fst after_pre)
         (if endswith file ".csv"
          then snd (try_file ext path notes file (snd after_pre))
          else snd after_pre)) ∧
  (∀ notes w',
     Forall (loaded_from ext path (pre ++ post))
       (fst (scan ext path notes (pre ++ file :: post) [] w'))) ∧
  ∃ notes dfs,
    fst (get_all_raw_ivs (with_listing ext (pre ++ file :: post)) path notesname w)
    = Ok (notes, dfs) ∧
    Forall (loaded_from ext path (pre ++ post)) dfs.
Proof.
  intros Hread.
  assert (Hexcl : ∀ notes w',
     Forall (loaded_from ext path (pre ++ post))
       (fst (scan ext path notes (pre ++ file :: post) [] w'))).
  { intros notes w'.
    eapply Forall_impl;
      [apply (scan_loaded ext path notes (pre ++ file :: post)); done|].
    intros df (f & label & sdata & Hf & Hcsv & Hok & ->).
    exists f, label, sdata. repeat split; try done.
    apply elem_of_app in Hf as [Hf|Hf]; [apply elem_of_app; by left|].
    apply elem_of_cons in Hf as [->|Hf]; [congruence|].
    apply elem_of_app. by right. }
  split; [|split; [|split]].
  - intros notes w'. by eapply try_file_unreadable.
  - intros notes dfs w' after_pre. subst after_pre. rewrite scan_app. simpl.
    destruct (endswith file ".csv"); [|done].
    pose proof (try_file_unreadable ext path notes file e
                  (snd (scan ext path notes pre dfs w')) Hread) as Hno.
    by destruct (try_file _ _ _ _ _) as [[df|e'] w''].
  - exact Hexcl.
  - unfold get_all_raw_ivs, get_notes. simpl.
    destruct (read_csv ext (path +:+ notesname)) as [rows|e'].
    + specialize (Hexcl (Notes rows) w). rewrite scan_with_listing.
      destruct (scan ext path (Notes rows) (pre ++ file :: post) [] w) as [dfs w2].
      by exists (Notes rows), dfs.
    + rewrite scan_with_listing, scan_without_notes. by exists Notes0, [].
Qed.

Lemma unreadable_file_is_skipped_witness :
  (∀ notes w', is_ok (fst (try_file bench "data/" notes "notes.csv" w')) = false) ∧
  (∀ notes dfs w',
     let after_pre :=
       scan bench "data/" notes ["2018_2_16_10_3_48.csv"; "8.csv"] dfs w' in
     scan bench "data/" notes
       (["2018_2_16_10_3_48.csv"; "8.csv"] ++ "notes.csv" :: ["readme.txt"]) dfs w'
     = scan bench "data/" notes ["readme.txt"] (fst after_pre)
         (if endswith "notes.csv" ".csv"
          then snd (try_file bench "data/" notes "notes.csv" (snd after_pre))
          else snd after_pre)) ∧
  (∀ notes w',
     Forall (loaded_from bench "data/"
               (["2018_2_16_10_3_48.csv"; "8.csv"] ++ ["readme.txt"]))
       (fst (scan bench "data/" notes
               (["2018_2_16_10_3_48.csv"; "8.csv"] ++ "notes.csv" :: ["readme.txt"])
               [] w'))) ∧
  ∃ notes dfs,
    fst (get_all_raw_ivs
           (with_listing bench
              (["2018_2_16_10_3_48.csv"; "8.csv"] ++ "notes.csv" :: ["readme.txt"]))
           "data/" "notes.csv" (typing ["bias"]))
    = Ok (notes, dfs) ∧
    Forall (loaded_from bench "data/"
              (["2018_2_16_10_3_48.csv"; "8.csv"] ++ ["readme.txt"])) dfs.
Proof.
  apply (unreadable_file_is_skipped bench "data/" "notes.csv"
           ["2018_2_16_10_3_48.csv"; "8.csv"] "notes.csv" ["readme.txt"]
           ValueError (typing ["bias"])).
  reflexivity.
Defined.

(** C1, the code at a directory without notes.  The directory [fresh/]
    holds one file, [run_003.csv], which [get_sensor_data] loads under the
    label 'not in notes', and no notes file.  [get_all_raw_ivs] returns
    normally and asks nothing, but its collection is empty: with [notes]
    bound to 0, [notes.filename] raises AttributeError for every file and
    the bare [except] skips the file. *)
Theorem no_notes_gives_empty_collection :
  get_notes fresh ("fresh/" +:+ "notes.csv") = Raise OSError ∧
  os_listdir fresh "fresh/" = Ok ["run_003.csv"] ∧
  get_sensor_data fresh "fresh/" "run_003.csv" default_label
  = Ok [Row 0 (-3) 12 "run_003.csv" "not in notes";
        Row 1 (-3) 13 "run_003.csv" "not in notes"] ∧
  get_all_raw_ivs fresh "fresh/" "notes.csv" (typing ["bias"])
  = (Ok (Notes0, []),
     printed (typing ["bias"]) [Print [PStr "no notes for this directory"]]).
Proof. repeat split; reflexivity. Qed.

(** ** More on slicing *)

Section SliceLaws.

Context {A : Type}.
Implicit Types (dfs xs : list A) (n m : list Z).

Lemma selects_front_to_back dfs :
  Forall2 (selects dfs) (front_to_back (length dfs)) dfs.
Proof.
  apply Forall2_same_length_lookup_2.
  - unfold front_to_back, range. by rewrite length_fmap, length_seq.
  - intros i j x Hj Hx. unfold front_to_back, range in Hj.
    rewrite list_lookup_fmap in Hj.
    pose proof (lookup_lt_Some _ _ _ Hx) as Hlt.
    rewrite lookup_seq_lt in Hj by done. simpl in Hj. injection Hj as <-.
    split; [unfold in_range; lia|]. unfold position.
    destruct (Z.ltb_spec (Z.of_nat i) 0); [lia|]. by rewrite Nat2Z.id.
Qed.

Lemma selects_back_to_front dfs :
  Forall2 (selects dfs) (back_to_front (length dfs)) (reverse dfs).
Proof.
  apply Forall2_same_length_lookup_2.
  - unfold back_to_front, range.
    by rewrite length_fmap, length_seq, length_reverse.
  - intros i j x Hj Hx. unfold back_to_front, range in Hj.
    rewrite list_lookup_fmap in Hj.
    pose proof (lookup_lt_Some _ _ _ Hx) as Hlt. rewrite length_reverse in Hlt.
    rewrite lookup_seq_lt in Hj by done. simpl in Hj. injection Hj as <-.
    split; [unfold in_range; lia|]. unfold position.
    destruct (Z.ltb_spec (-1 - Z.of_nat i) 0); [|lia].
    rewrite reverse_lookup in Hx by done. rewrite <- Hx. f_equal. lia.
Qed.

Lemma selects_compose dfs n xs m js ys :
  Forall2 (selects dfs) n xs →
  Forall2 (selects n) m js →
  Forall2 (selects xs) m ys →
  Forall2 (selects dfs) js ys.
Proof.
  intros Hn Hjs Hys.
  apply Forall2_same_length_lookup_2.
  - apply Forall2_length in Hjs, Hys. congruence.
  - intros i j y Hj Hy.
    destruct (Forall2_lookup_r _ _ _ _ _ Hjs Hj) as (k & Hk & _ & Hnk).
    destruct (Forall2_lookup_r _ _ _ _ _ Hys Hy) as (k' & Hk' & _ & Hxk).
    assert (k' = k) as -> by congruence.
    rewrite <- (Forall2_length _ _ _ Hn) in Hxk.
    destruct (Forall2_lookup_l _ _ _ _ _ Hn Hnk) as (y' & Hy' & Hsel).
    congruence.
Qed.

End SliceLaws.

(** X1.  Slicing by all the indices in order gives back the collection,
    and slicing by [-1, -2, ..., -len(dfs)] gives it back to front. *)
Theorem slice_dfs_whole {A} (dfs : list A) :
  slice_dfs dfs (front_to_back (length dfs)) = Ok dfs ∧
  slice_dfs dfs (back_to_front (length dfs)) = Ok (reverse dfs).
Proof.
  split; apply slice_dfs_ok;
    [apply selects_front_to_back|apply selects_back_to_front].
Qed.

(** X2.  Slices compose: a slice by [m] of the slice of [dfs] by [n] is
    the slice of [dfs] by the subscripts that [m] picks out of [n], and it
    fails exactly when picking them out of [n] fails. *)
Theorem slice_dfs_of_slice {A} (dfs xs : list A) (n m : list Z) :
  slice_dfs dfs n = Ok xs →
  slice_dfs xs m =
  match slice_dfs n m with
  | Ok js => slice_dfs dfs js
  | Raise e => Raise e
  end.
Proof.
  intros Hn. apply slice_dfs_inv in Hn.
  pose proof (Forall2_length _ _ _ Hn) as Hlen.
  destruct (in_range_cases (length xs) m) as [Hall|Hex].
  - destruct (selects_total xs m Hall) as [ys Hys].
    assert (Hall' : Forall (in_range (length n)) m) by by rewrite Hlen.
    destruct (selects_total n m Hall') as [js Hjs].
    rewrite (slice_dfs_ok xs m ys Hys), (slice_dfs_ok n m js Hjs).
    symmetry. apply slice_dfs_ok. by eapply selects_compose.
  - rewrite (slice_dfs_raise xs m Hex).
    rewrite <- Hlen in Hex. by rewrite (slice_dfs_raise n m Hex).
Qed.

Lemma slice_dfs_of_slice_witness :
  slice_dfs ["r2"; "r0"; "r2"] [-1; 1] =
  match slice_dfs [2; 0; 2] [-1; 1] with
  | Ok js => slice_dfs ["r0"; "r1"; "r2"] js
  | Raise e => Raise e
  end.
Proof.
  apply (slice_dfs_of_slice ["r0"; "r1"; "r2"] ["r2"; "r0"; "r2"] [2; 0; 2] [-1; 1]).
  reflexivity.
Defined.

(** ** More on inspecting *)

Lemma for_each_app {S X} (body : X → M S ()) (xs ys : list X) (s : S) :
  for_each body (xs ++ ys) s =
  match for_each body xs s with
  | (Ok _, s') => for_each body ys s'
  | (Raise e, s') => (Raise e, s')
  end.
Proof.
  revert s. induction xs as [|x xs IH]; intros s; [done|].
  simpl. unfold bind. destruct (body x s) as [[[]|e] s']; [apply IH|done].
Qed.

Lemma filter_seq_between (istart iend : Z) (m : nat) : ∀ k,
  filter (λ i : nat, istart ≤ Z.of_nat i ≤ iend) (seq k m)
  = seq (k `max` Z.to_nat istart)
      ((k + m) `min` Z.to_nat (iend + 1) - k `max` Z.to_nat istart).
Proof.
  induction m as [|m IH]; intros k.
  - simpl. by replace ((k + 0) `min` Z.to_nat (iend + 1)
                       - k `max` Z.to_nat istart)%nat with 0%nat by lia.
  - simpl. destruct (decide (istart ≤ Z.of_nat k ≤ iend)) as [Hin|Hout].
    + rewrite filter_cons_True by done. rewrite IH.
      replace (k `max` Z.to_nat istart)%nat with k by lia.
      replace (S k `max` Z.to_nat istart)%nat with (S k) by lia.
      replace ((k + S m) `min` Z.to_nat (iend + 1) - k)%nat
        with (S ((S k + m) `min` Z.to_nat (iend + 1) - S k)) by lia.
      done.
    + rewrite filter_cons_False by done. rewrite IH.
      destruct (decide (Z.of_nat k < istart)) as [Hlow|Hhigh].
      * replace (S k `max` Z.to_nat istart)%nat
          with (k `max` Z.to_nat istart)%nat by lia.
        f_equal. lia.
      * replace ((S k + m) `min` Z.to_nat (iend + 1)
                 - S k `max` Z.to_nat istart)%nat with 0%nat by lia.
        by replace ((k + S m) `min` Z.to_nat (iend + 1)
                    - k `max` Z.to_nat istart)%nat with 0%nat by lia.
Qed.

Section InspectLaws.

Context {num : Type}.
Implicit Types (w : World num) (dfs : list (DataFrame num)).

Lemma dfs_indexes_effective dfs istart iend :
  dfs_indexes dfs istart iend
  = for_each (dfs_indexes_body dfs istart (effective_iend dfs istart iend))
      (range (length dfs)).
Proof. reflexivity. Qed.

Lemma dfs_indexes_body_prints dfs istart iend i w :
  ∃ out, snd (dfs_indexes_body dfs istart iend i w) = printed w out ∧
         Forall (λ e, is_prompt e = false) out ∧ (length out ≤ 1)%nat.
Proof.
  assert (Hnone : ∃ out, w = printed w out ∧
            Forall (λ e, is_prompt e = false) out ∧ (length out ≤ 1)%nat).
  { exists []. rewrite printed_nil. repeat split; [constructor|simpl; lia]. }
  unfold dfs_indexes_body, bind, lift.
  destruct (_ && _); [|exact Hnone].
  destruct (getitem dfs (Z.of_nat i)) as [df|e]; [|exact Hnone].
  destruct df as [|r rows]; [exact Hnone|]. simpl.
  eexists [_]. split; [reflexivity|]. split; [by repeat constructor|simpl; lia].
Qed.

Lemma dfs_indexes_loop_prints dfs istart iend indices : ∀ w,
  ∃ out,
    snd (for_each (dfs_indexes_body dfs istart iend) indices w) = printed w out ∧
    Forall (λ e, is_prompt e = false) out ∧ (length out ≤ length indices)%nat.
Proof.
  induction indices as [|i indices IH]; intros w.
  - exists []. rewrite printed_nil. repeat split; [constructor|simpl; lia].
  - simpl. unfold bind at 1.
    destruct (dfs_indexes_body_prints dfs istart iend i w) as (out1 & H1 & Hp1 & Hl1).
    destruct (dfs_indexes_body dfs istart iend i w) as [[[]|e] w1]; simpl in H1; subst w1.
    + destruct (IH (printed w out1)) as (out2 & -> & Hp2 & Hl2).
      exists (out1 ++ out2). rewrite printed_app.
      split; [done|]. split; [by apply Forall_app|rewrite length_app; simpl; lia].
    + exists out1. repeat split; [done|simpl; lia].
Qed.

End InspectLaws.

(** X3.  The range of [dfs_indexes] in general.  With [e] the value of
    [iend] after its replacement, and every record at an index between
    [istart] and [e] holding a line, the call prints the lines of exactly
    the indices [i] with [istart <= i <= e] that the collection has, in
    increasing order, one line each: an [iend] beyond the last index, or
    an [istart] below 0, is cut to the collection, and an [istart] beyond
    the last index lists nothing. *)
Theorem dfs_indexes_range {num} (dfs : list (DataFrame num)) (istart iend : Z)
    (w : World num) :
  let e := effective_iend dfs istart iend in
  let shown := shown_indices (length dfs) istart e in
  (∀ i, istart ≤ Z.of_nat i ≤ e → dfs !! i ≠ Some []) →
  dfs_indexes dfs istart iend w = (Ok (), printed w (listing dfs shown)) ∧
  length (listing dfs shown) = length shown ∧
  (∀ i, i ∈ shown ↔ istart ≤ Z.of_nat i ≤ e ∧ (i < length dfs)%nat).
Proof.
  intros e shown Hrows.
  assert (Hshown : filter (λ i : nat, istart ≤ Z.of_nat i ≤ e) (seq 0 (length dfs))
                   = shown).
  { rewrite filter_seq_between. subst shown. unfold shown_indices.
    by rewrite Nat.max_0_l. }
  assert (Hmem : ∀ i, i ∈ shown ↔ istart ≤ Z.of_nat i ≤ e ∧ (i < length dfs)%nat).
  { intros i. rewrite <- Hshown, list_elem_of_filter, elem_of_seq. lia. }
  split; [|split; [|exact Hmem]].
  - rewrite dfs_indexes_effective. fold e. unfold range.
    rewrite dfs_indexes_loop; [by rewrite Hshown|done|].
    intros i _ Hi. by apply Hrows.
  - apply listing_length, Forall_forall. intros i Hi.
    apply Hmem in Hi as [Hi Hlt]. split; [done|by apply Hrows].
Qed.

Lemma dfs_indexes_range_witness :
  let e := effective_iend six_with_gap 4 9 in
  let shown := shown_indices (length six_with_gap) 4 e in
  dfs_indexes six_with_gap 4 9 quiet
  = (Ok (), printed quiet (listing six_with_gap shown)) ∧
  length (listing six_with_gap shown) = length shown ∧
  (∀ i, i ∈ shown ↔ 4 ≤ Z.of_nat i ≤ e ∧ (i < length six_with_gap)%nat).
Proof.
  apply (dfs_indexes_range six_with_gap 4 9 quiet).
  intros i Hi. do 4 (destruct i as [|i]; [simpl in Hi; lia|]).
  do 2 (destruct i as [|i]; [discriminate|]). discriminate.
Defined.

(** X4.  When the record at index [j] is the first one in the range of
    [dfs_indexes] that holds no line, the lines of the records of the
    range before [j] are printed, then the call raises KeyError: the
    records after [j] are never listed. *)
Theorem dfs_indexes_first_empty_record {num} (dfs : list (DataFrame num))
    (istart iend : Z) (j : nat) (w : World num) :
  let e := effective_iend dfs istart iend in
  istart ≤ Z.of_nat j ≤ e →
  dfs !! j = Some [] →
  (∀ i, (i < j)%nat → istart ≤ Z.of_nat i → dfs !! i ≠ Some []) →
  dfs_indexes dfs istart iend w
  = (Raise KeyError,
     printed w (listing dfs (seq (Z.to_nat istart) (j - Z.to_nat istart)))).
Proof.
  intros e Hj Hempty Hbefore.
  assert (Hlt : (j < length dfs)%nat) by (eapply lookup_lt_Some; exact Hempty).
  rewrite dfs_indexes_effective. fold e. unfold range.
  replace (length dfs) with (j + S (length dfs - S j))%nat by lia.
  rewrite seq_app, for_each_app. simpl seq at 2.
  rewrite dfs_indexes_loop.
  - simpl. unfold bind at 1.
    rewrite dfs_indexes_body_empty by done.
    rewrite filter_seq_between. rewrite Nat.max_0_l. simpl.
    do 4 f_equal. lia.
  - lia.
  - intros i Hi [Hlo _]. apply Hbefore; [lia|done].
Qed.

Lemma dfs_indexes_first_empty_record_witness :
  dfs_indexes six_with_gap 1 0 quiet
  = (Raise KeyError,
     printed quiet (listing six_with_gap (seq (Z.to_nat 1) (3 - Z.to_nat 1)))).
Proof.
  apply (dfs_indexes_first_empty_record six_with_gap 1 0 3 quiet).
  - unfold effective_iend. simpl. lia.
  - reflexivity.
  - intros i Hi Hlo. do 3 (destruct i as [|i]; [discriminate|]). lia.
Defined.

(** X5.  Whatever its arguments and whether or not it fails,
    [dfs_indexes] only prints: it adds at most one line per record to the
    terminal, asks the user nothing, reads no typed line and leaves every
    HDF5 file as it is. *)
Theorem dfs_indexes_only_prints {num} (dfs : list (DataFrame num))
    (istart iend : Z) (w : World num) :
  ∃ out,
    snd (dfs_indexes dfs istart iend w) = printed w out ∧
    Forall (λ e, is_prompt e = false) out ∧
    (length out ≤ length dfs)%nat.
Proof.
  rewrite dfs_indexes_effective.
  destruct (dfs_indexes_loop_prints dfs istart
              (effective_iend dfs istart iend) (range (length dfs)) w)
    as (out & Hout & Hp & Hl).
  exists out. unfold range in Hl. rewrite length_seq in Hl. done.
Qed.

(** ** More on building *)

Section BuilderLaws.

Context {num : Type}.
Implicit Types (ext : Extern num) (w : World num) (dfs : list (DataFrame num)).
Implicit Types (rows : NotesFrame) (file path : string) (files : list string).

Lemma scan_acc ext path notes files : ∀ dfs w,
  scan ext path notes files dfs w
  = (dfs ++ fst (scan ext path notes files [] w),
     snd (scan ext path notes files [] w)).
Proof.
  induction files as [|file files IH]; intros dfs w.
  - simpl. by rewrite app_nil_r.
  - simpl. destruct (endswith file ".csv"); [|apply IH].
    destruct (try_file ext path notes file w) as [[df|e] w']; [|apply IH].
    rewrite (IH (dfs ++ [df])), (IH ([] ++ [df])). simpl.
    by rewrite <- app_assoc.
Qed.

Lemma scan_csv_only ext path notes files : ∀ dfs w,
  scan ext path notes files dfs w
  = scan ext path notes (filter (λ f, is_csv f) files) dfs w.
Proof.
  induction files as [|file files IH]; intros dfs w; [done|].
  destruct (endswith file ".csv") eqn:Hcsv.
  - rewrite filter_cons_True by (unfold is_csv; by rewrite Hcsv).
    simpl. rewrite Hcsv.
    destruct (try_file ext path notes file w) as [[df|e] w']; apply IH.
  - rewrite filter_cons_False by (unfold is_csv; rewrite Hcsv; simpl; tauto).
    simpl. rewrite Hcsv. apply IH.
Qed.

Lemma resolve_label_world ext notes file w :
  ∃ out k,
    snd (resolve_label ext notes file w)
    = mkWorld (drop k (stdin w)) (stdout w ++ out) (hdf w) ∧
    ∀ l, fst (resolve_label ext notes file w) = Ok l →
         l = default_label ∨ l ∈ stdin w.
Proof.
  assert (Hsame : w = mkWorld (drop 0 (stdin w)) (stdout w ++ []) (hdf w)).
  { destruct w. simpl. by rewrite app_nil_r. }
  destruct notes as [|rows].
  - exists [], 0%nat. split; [exact Hsame|]. intros l Hl. discriminate.
  - rewrite resolve_label_cases.
    destruct (contains _ _).
    + destruct (first_row rows file) as [[n [f d]]|].
      * unfold input, printed. simpl.
        destruct (stdin w) as [|line rest] eqn:Hin; simpl.
        -- eexists _, 0%nat. rewrite <- app_assoc. split; [reflexivity|].
           intros l Hl. discriminate.
        -- eexists _, 1%nat. rewrite <- app_assoc. simpl. rewrite drop_0.
           split; [reflexivity|]. intros l [= <-]. right. left.
      * exists [], 0%nat. split; [exact Hsame|]. intros l Hl. discriminate.
    + exists [], 0%nat. split; [exact Hsame|]. intros l [= <-]. by left.
Qed.

Lemma try_file_world ext path notes file w :
  ∃ out k,
    snd (try_file ext path notes file w)
    = mkWorld (drop k (stdin w)) (stdout w ++ out) (hdf w) ∧
    ∀ df, fst (try_file ext path notes file w) = Ok df →
          ∃ l, get_sensor_data ext path file l = Ok df ∧
               (l = default_label ∨ l ∈ stdin w).
Proof.
  destruct (resolve_label_world ext notes file w) as (out & k & Hw & Hl).
  exists out, k. unfold try_file, bind, lift.
  destruct (resolve_label ext notes file w) as [[l|e] w']; simpl in *.
  - split; [done|]. intros df Hdf. exists l. split; [done|]. by apply Hl.
  - split; [done|]. intros df Hdf. discriminate.
Qed.

Lemma elem_of_drop_stdin (k : nat) (l : string) (lines : list string) :
  l ∈ drop k lines → l ∈ lines.
Proof.
  intros Hin. rewrite <- (take_drop k lines). apply elem_of_app. by right.
Qed.

Lemma scan_sources ext path notes files : ∀ w,
  ∃ sources : list (string * string),
    sources.*1 `sublist_of` filter (λ f, is_csv f) files ∧
    Forall2 (λ s df, get_sensor_data ext path s.1 s.2 = Ok df)
      sources (fst (scan ext path notes files [] w)) ∧
    Forall (λ s, s.2 = default_label ∨ s.2 ∈ stdin w) sources.
Proof.
  induction files as [|file files IH]; intros w.
  - exists []. repeat split; constructor.
  - destruct (endswith file ".csv") eqn:Hcsv.
    + rewrite filter_cons_True by (unfold is_csv; by rewrite Hcsv).
      simpl. rewrite Hcsv.
      destruct (try_file_world ext path notes file w) as (out & k & Hw & Hdf).
      destruct (try_file ext path notes file w) as [[df|e] w']; simpl in Hw, Hdf.
      * destruct (Hdf df eq_refl) as (l & Hload & Hl).
        destruct (IH w') as (sources & Hsub & Hall & Hlabels).
        exists ((file, l) :: sources). rewrite scan_acc. simpl.
        split; [by apply sublist_skip|]. split; [by constructor|].
        constructor; [done|].
        eapply Forall_impl; [exact Hlabels|].
        intros s [Hs|Hs]; [by left|right]. subst w'. simpl in Hs.
        by eapply elem_of_drop_stdin.
      * destruct (IH w') as (sources & Hsub & Hall & Hlabels).
        exists sources. split; [by apply sublist_cons|]. split; [done|].
        eapply Forall_impl; [exact Hlabels|].
        intros s [Hs|Hs]; [by left|right]. subst w'. simpl in Hs.
        by eapply elem_of_drop_stdin.
    + rewrite filter_cons_False by (unfold is_csv; rewrite Hcsv; simpl; tauto).
      simpl. rewrite Hcsv. apply IH.
Qed.

End BuilderLaws.

Section BuilderRuns.

Context {num : Type}.
Implicit Types (ext : Extern num) (w : World num) (dfs : list (DataFrame num)).
Implicit Types (rows : NotesFrame) (file path : string) (files : list string).

Lemma try_file_consumes ext path rows file w :
  stdin (snd (try_file ext path (Notes rows) file w))
  = drop (if contains (Series_str ext rows.*1) file && bool_decide (file ∈ rows.*1)
          then 1 else 0) (stdin w) ∧
  hdf (snd (try_file ext path (Notes rows) file w)) = hdf w.
Proof.
  unfold try_file, bind, lift.
  assert (Hres :
    stdin (snd (resolve_label ext (Notes rows) file w))
    = drop (if contains (Series_str ext rows.*1) file && bool_decide (file ∈ rows.*1)
            then 1 else 0) (stdin w) ∧
    hdf (snd (resolve_label ext (Notes rows) file w)) = hdf w).
  { rewrite resolve_label_cases. destruct (contains _ _); simpl; [|done].
    destruct (first_row rows file) as [[n [f d]]|] eqn:Hrow.
    - rewrite bool_decide_true.
      + unfold input, printed. simpl. by destruct (stdin w).
      + destruct (decide (file ∈ rows.*1)) as [|Hno]; [done|].
        apply first_row_None in Hno. congruence.
    - apply first_row_None in Hrow. by rewrite bool_decide_false. }
  by destruct (resolve_label ext (Notes rows) file w) as [[l|e] w'].
Qed.

Lemma scan_consumes ext path rows files : ∀ dfs w,
  stdin (snd (scan ext path (Notes rows) files dfs w))
  = drop (length (filter (λ file, asked ext rows file) files)) (stdin w) ∧
  hdf (snd (scan ext path (Notes rows) files dfs w)) = hdf w.
Proof.
  induction files as [|file files IH]; intros dfs w; [done|].
  destruct (try_file_consumes ext path rows file w) as [Hin Hhdf].
  destruct (asked ext rows file) eqn:Ha.
  - rewrite filter_cons_True by (by rewrite Ha).
    unfold asked in Ha. simpl.
    destruct (endswith file ".csv"); [simpl in Ha|done].
    rewrite Ha in Hin.
    destruct (try_file ext path (Notes rows) file w) as [[df|e] w'];
      simpl in Hin, Hhdf;
      destruct (IH (dfs ++ [df]) w') as [IH1 IH2] || destruct (IH dfs w') as [IH1 IH2];
      rewrite IH1, IH2, Hin, Hhdf, drop_drop; done.
  - rewrite filter_cons_False by (rewrite Ha; simpl; tauto).
    unfold asked in Ha. simpl.
    destruct (endswith file ".csv"); [simpl in Ha|apply IH].
    rewrite Ha in Hin.
    destruct (try_file ext path (Notes rows) file w) as [[df|e] w'];
      simpl in Hin, Hhdf;
      destruct (IH (dfs ++ [df]) w') as [IH1 IH2] || destruct (IH dfs w') as [IH1 IH2];
      rewrite IH1, IH2, Hin, Hhdf, drop_0; done.
Qed.

Lemma try_file_unlisted ext path rows file w :
  contains (Series_str ext rows.*1) file = false →
  try_file ext path (Notes rows) file w
  = (get_sensor_data ext path file default_label, w).
Proof.
  intros Hno. unfold try_file, bind. rewrite resolve_label_cases, Hno. done.
Qed.

Lemma scan_unlisted ext path rows files : ∀ dfs w,
  (∀ f, f ∈ files → is_csv f = true → contains (Series_str ext rows.*1) f = false) →
  scan ext path (Notes rows) files dfs w
  = (dfs ++ omap (λ f, load_with ext path (f, default_label))
              (filter (λ f, is_csv f) files), w).
Proof.
  induction files as [|file files IH]; intros dfs w Hno.
  - simpl. by rewrite app_nil_r.
  - assert (Hrest : ∀ f, f ∈ files → is_csv f = true →
                         contains (Series_str ext rows.*1) f = false).
    { intros f Hf. apply Hno. by right. }
    destruct (endswith file ".csv") eqn:Hcsv.
    + rewrite filter_cons_True by (unfold is_csv; by rewrite Hcsv).
      simpl. rewrite Hcsv.
      rewrite try_file_unlisted by (apply Hno; [left|exact Hcsv]).
      unfold load_with. simpl.
      destruct (get_sensor_data ext path file default_label) as [df|e].
      * rewrite IH by done. by rewrite <- app_assoc.
      * by apply IH.
    + rewrite filter_cons_False by (unfold is_csv; rewrite Hcsv; simpl; tauto).
      simpl. rewrite Hcsv. by apply IH.
Qed.

Lemma try_file_asked ext path rows file line rest out hdfs :
  asked ext rows file = true →
  try_file ext path (Notes rows) file (mkWorld (line :: rest) out hdfs)
  = (get_sensor_data ext path file line,
     mkWorld rest (out ++ dialogue rows file) hdfs).
Proof.
  unfold asked. intros Ha.
  apply andb_prop in Ha as [Ha Hrow]. apply andb_prop in Ha as [_ Hsub].
  apply bool_decide_eq_true in Hrow.
  unfold try_file, bind, lift. rewrite resolve_label_cases, Hsub.
  unfold dialogue.
  destruct (first_row rows file) as [[n [f d]]|] eqn:Hfirst.
  - unfold input, printed. simpl. by rewrite <- app_assoc.
  - by apply first_row_None in Hfirst.
Qed.

Lemma scan_asked ext path rows files : ∀ dfs lines out hdfs,
  (∀ f, f ∈ files → asked ext rows f = true) →
  (length files ≤ length lines)%nat →
  scan ext path (Notes rows) files dfs (mkWorld lines out hdfs)
  = (dfs ++ omap (load_with ext path) (zip files lines),
     mkWorld (drop (length files) lines)
       (out ++ (files ≫= dialogue rows)) hdfs).
Proof.
  induction files as [|file files IH]; intros dfs lines out hdfs Hall Hlen.
  - simpl. by rewrite !app_nil_r, drop_0.
  - destruct lines as [|line rest]; [simpl in Hlen; lia|].
    assert (Ha : asked ext rows file = true) by (apply Hall; left).
    assert (Hcsv : endswith file ".csv" = true).
    { unfold asked in Ha. by destruct (endswith file ".csv"). }
    simpl. rewrite Hcsv, (try_file_asked _ _ _ _ _ _ _ _ Ha).
    unfold load_with at 1. simpl.
    destruct (get_sensor_data ext path file line) as [df|e].
    + rewrite IH; [|intros f Hf; apply Hall; by right|simpl in Hlen; lia].
      by rewrite <- !app_assoc.
    + rewrite IH; [|intros f Hf; apply Hall; by right|simpl in Hlen; lia].
      by rewrite <- !app_assoc.
Qed.

End BuilderRuns.

(** X6.  Only the entries of the directory that end in [.csv] count: a run
    on a directory returns what the run on its [.csv] entries alone
    returns, with the same terminal and the same pending input. *)
Theorem get_all_raw_ivs_csv_only {num} (ext : Extern num) path notesname files
    (w : World num) :
  get_all_raw_ivs (with_listing ext files) path notesname w
  = get_all_raw_ivs (with_listing ext (filter (λ f, is_csv f) files))
      path notesname w.
Proof.
  unfold get_all_raw_ivs, get_notes. simpl.
  destruct (read_csv ext (path +:+ notesname)) as [rows|e];
    rewrite !scan_with_listing; by rewrite scan_csv_only.
Qed.

(** X7.  The collection follows the order of the directory listing: its
    records were loaded, one each and in this order, from some of the
    [.csv] entries of the listing, and the label of each is 'not in notes'
    or one of the lines the user typed. *)
Theorem get_all_raw_ivs_in_listing_order {num} (ext : Extern num) path notesname
    files (w : World num) :
  os_listdir ext path = Ok files →
  ∃ notes dfs (sources : list (string * string)),
    fst (get_all_raw_ivs ext path notesname w) = Ok (notes, dfs) ∧
    sources.*1 `sublist_of` filter (λ f, is_csv f) files ∧
    Forall2 (λ s df, get_sensor_data ext path s.1 s.2 = Ok df) sources dfs ∧
    Forall (λ s, s.2 = default_label ∨ s.2 ∈ stdin w) sources.
Proof.
  intros Hdir. unfold get_all_raw_ivs. rewrite Hdir.
  destruct (get_notes ext (path +:+ notesname)) as [rows|e].
  - destruct (scan_sources ext path (Notes rows) files w)
      as (sources & Hsub & Hall & Hlab).
    destruct (scan ext path (Notes rows) files [] w) as [dfs w2].
    by exists (Notes rows), dfs, sources.
  - destruct (scan_sources ext path Notes0 files
                (snd (print [PStr "no notes for this directory"] w)))
      as (sources & Hsub & Hall & Hlab).
    destruct (scan ext path Notes0 files [] _) as [dfs w2].
    by exists Notes0, dfs, sources.
Qed.

Lemma get_all_raw_ivs_in_listing_order_witness :
  ∃ notes dfs (sources : list (string * string)),
    fst (get_all_raw_ivs bench "data/" "notes.csv" (typing ["bias"]))
    = Ok (notes, dfs) ∧
    sources.*1 `sublist_of`
      filter (λ f, is_csv f)
        ["2018_2_16_10_3_48.csv"; "8.csv"; "notes.csv"; "readme.txt"] ∧
    Forall2 (λ s df, get_sensor_data bench "data/" s.1 s.2 = Ok df) sources dfs ∧
    Forall (λ s, s.2 = default_label ∨ s.2 ∈ stdin (typing ["bias"])) sources.
Proof.
  apply (get_all_raw_ivs_in_listing_order bench "data/" "notes.csv"
           ["2018_2_16_10_3_48.csv"; "8.csv"; "notes.csv"; "readme.txt"]
           (typing ["bias"])).
  reflexivity.
Defined.

(** X8.  With the notes present, a run takes one typed line per file it
    asks about, from the front of the pending input and in the order of
    the listing, whether or not the file then loads; it leaves every HDF5
    file as it is. *)
Theorem get_all_raw_ivs_consumes_input {num} (ext : Extern num) path notesname
    rows files (w : World num) :
  get_notes ext (path +:+ notesname) = Ok rows →
  os_listdir ext path = Ok files →
  stdin (snd (get_all_raw_ivs ext path notesname w))
  = drop (length (filter (λ file, asked ext rows file) files)) (stdin w) ∧
  hdf (snd (get_all_raw_ivs ext path notesname w)) = hdf w.
Proof.
  intros Hnotes Hdir.
  rewrite (get_all_raw_ivs_with_notes _ _ _ _ _ _ Hnotes Hdir). simpl.
  apply scan_consumes.
Qed.

Lemma get_all_raw_ivs_consumes_input_witness :
  stdin (snd (get_all_raw_ivs bench "data/" "notes.csv" (typing ["bias"; "dark"])))
  = drop (length (filter (λ file, asked bench bench_notes file)
                    ["2018_2_16_10_3_48.csv"; "8.csv"; "notes.csv"; "readme.txt"]))
      (stdin (typing ["bias"; "dark"])) ∧
  hdf (snd (get_all_raw_ivs bench "data/" "notes.csv" (typing ["bias"; "dark"])))
  = hdf (typing ["bias"; "dark"]).
Proof.
  apply (get_all_raw_ivs_consumes_input bench "data/" "notes.csv" bench_notes
           ["2018_2_16_10_3_48.csv"; "8.csv"; "notes.csv"; "readme.txt"]
           (typing ["bias"; "dark"])); reflexivity.
Defined.

(** X9.  When the notes file cannot be read, the run returns 0 in place
    of the notes and an empty collection, whatever the directory holds;
    it prints 'no notes for this directory' and nothing else, and takes
    no typed line. *)
Theorem get_all_raw_ivs_no_notes_no_records {num} (ext : Extern num) path notesname
    files e (w : World num) :
  get_notes ext (path +:+ notesname) = Raise e →
  os_listdir ext path = Ok files →
  get_all_raw_ivs ext path notesname w
  = (Ok (Notes0, []),
     mkWorld (stdin w) (stdout w ++ [Print [PStr "no notes for this directory"]])
       (hdf w)).
Proof.
  intros Hnotes Hdir.
  by rewrite (get_all_raw_ivs_without_notes ext path notesname files e w Hnotes Hdir).
Qed.

Lemma get_all_raw_ivs_no_notes_no_records_witness :
  get_all_raw_ivs fresh "fresh/" "notes.csv" (typing ["bias"])
  = (Ok (Notes0, []),
     mkWorld (stdin (typing ["bias"]))
       (stdout (typing ["bias"]) ++ [Print [PStr "no notes for this directory"]])
       (hdf (typing ["bias"]))).
Proof.
  apply (get_all_raw_ivs_no_notes_no_records fresh "fresh/" "notes.csv"
           ["run_003.csv"] OSError (typing ["bias"])); reflexivity.
Defined.

(** X10.  With the notes present and no [.csv] entry of the directory
    occurring in the text [str(notes.filename)], the collection holds, in
    the order of the listing, every [.csv] entry that pandas can read,
    each under the label 'not in notes'; nothing is printed or asked and
    no typed line is taken. *)
Theorem get_all_raw_ivs_unlisted_files {num} (ext : Extern num) path notesname
    rows files (w : World num) :
  get_notes ext (path +:+ notesname) = Ok rows →
  os_listdir ext path = Ok files →
  (∀ f, f ∈ files → is_csv f = true → contains (Series_str ext rows.*1) f = false) →
  get_all_raw_ivs ext path notesname w
  = (Ok (Notes rows,
         omap (λ f, load_with ext path (f, default_label))
           (filter (λ f, is_csv f) files)), w).
Proof.
  intros Hnotes Hdir Hno.
  rewrite (get_all_raw_ivs_with_notes _ _ _ _ _ _ Hnotes Hdir).
  by rewrite scan_unlisted.
Qed.

(** X11.  With the notes present, every entry of the directory asked
    about and at least as many typed lines as entries, the k-th entry is
    loaded under the k-th typed line; entries that pandas cannot read are
    left out but still take their line.  The terminal shows, per entry,
    the file name, the description of the first line of the notes with
    that file name, and the question. *)
Theorem get_all_raw_ivs_labels_in_order {num} (ext : Extern num) path notesname
    rows files (w : World num) :
  get_notes ext (path +:+ notesname) = Ok rows →
  os_listdir ext path = Ok files →
  (∀ f, f ∈ files → asked ext rows f = true) →
  (length files ≤ length (stdin w))%nat →
  get_all_raw_ivs ext path notesname w
  = (Ok (Notes rows, omap (load_with ext path) (zip files (stdin w))),
     mkWorld (drop (length files) (stdin w))
       (stdout w ++ (files ≫= dialogue rows)) (hdf w)).
Proof.
  intros Hnotes Hdir Hall Hlen.
  rewrite (get_all_raw_ivs_with_notes _ _ _ _ _ _ Hnotes Hdir).
  destruct w as [lines out hdfs]. simpl in *.
  by rewrite scan_asked.
Qed.

Lemma get_all_raw_ivs_unlisted_files_witness :
  get_all_raw_ivs (with_listing field ["run_03.csv"; "notes.csv"; "log.txt"])
    "field/" "notes.csv" (typing ["bias"])
  = (Ok (Notes field_notes,
         omap (λ f, load_with (with_listing field ["run_03.csv"; "notes.csv"; "log.txt"])
                      "field/" (f, default_label))
           (filter (λ f, is_csv f) ["run_03.csv"; "notes.csv"; "log.txt"])),
     typing ["bias"]).
Proof.
  apply (get_all_raw_ivs_unlisted_files
           (with_listing field ["run_03.csv"; "notes.csv"; "log.txt"])
           "field/" "notes.csv" field_notes
           ["run_03.csv"; "notes.csv"; "log.txt"] (typing ["bias"])).
  - reflexivity.
  - reflexivity.
  - intros f Hf _.
    repeat (apply elem_of_cons in Hf as [->|Hf]; [reflexivity|]).
    by apply elem_of_nil in Hf.
Defined.

Lemma get_all_raw_ivs_labels_in_order_witness :
  get_all_raw_ivs (with_listing field ["run_003.csv"]) "field/" "notes.csv"
    (typing ["bias"; "dark"])
  = (Ok (Notes field_notes,
         omap (load_with (with_listing field ["run_003.csv"]) "field/")
           (zip ["run_003.csv"] (stdin (typing ["bias"; "dark"])))),
     mkWorld (drop (length ["run_003.csv"]) (stdin (typing ["bias"; "dark"])))
       (stdout (typing ["bias"; "dark"]) ++ (["run_003.csv"] ≫= dialogue field_notes))
       (hdf (typing ["bias"; "dark"]))).
Proof.
  apply (get_all_raw_ivs_labels_in_order (with_listing field ["run_003.csv"])
           "field/" "notes.csv" field_notes ["run_003.csv"]
           (typing ["bias"; "dark"])).
  - reflexivity.
  - reflexivity.
  - intros f Hf.
    repeat (apply elem_of_cons in Hf as [->|Hf]; [reflexivity|]).
    by apply elem_of_nil in Hf.
  - simpl. lia.
Defined.

(** The directory of the specification's example: [run_003.csv] is asked
    about, [run_03.csv] gets the default label, and the notes file itself
    is tried and skipped. *)
Example field_run :
  fst (get_all_raw_ivs field "field/" "notes.csv" (typing ["bias"]))
  = Ok (Notes field_notes,
        [[Row 0 (-3) 12 "run_003.csv" "bias"];
         [Row 0 (-3) 7 "run_03.csv" "not in notes"]]).
Proof. reflexivity. Qed.

(** ** More on loading *)

(** X17.  A record loaded by [get_sensor_data] holds the samples of the
    file exactly, line by line in the order of the file, and every line
    carries the file name and the label given; so [label[0]] and
    [fname[0]] give them back unless the file holds no sample.  Whether
    the load succeeds, and with which samples, does not depend on the
    label. *)
Theorem get_sensor_data_keeps_samples {num} (ext : Extern num)
    (path fname label : string) (df : DataFrame num) :
  get_sensor_data ext path fname label = Ok df →
  read_csv_usecols ext (path +:+ fname) = Ok (samples df) ∧
  Forall (λ r, col_fname r = fname ∧ col_label r = label) df ∧
  (df ≠ [] → label0 df = Ok label ∧ fname0 df = Ok fname) ∧
  (∀ label', ∃ df', get_sensor_data ext path fname label' = Ok df' ∧
                    samples df' = samples df).
Proof.
  unfold get_sensor_data.
  destruct (read_csv_usecols ext (path +:+ fname)) as [sdata|e]; [|discriminate].
  intros [= <-].
  assert (Hsamples : ∀ l, samples (map (λ '(t, v, i), Row t v i fname l) sdata)
                          = sdata).
  { intros l. unfold samples. rewrite map_map.
    induction sdata as [|[[t v] i] sdata IH]; [done|]. simpl. by rewrite IH. }
  split; [by rewrite Hsamples|]. split; [|split].
  - apply Forall_forall. intros r Hr. apply list_elem_of_In, in_map_iff in Hr.
    by destruct Hr as ([[t v] i] & <- & _).
  - destruct sdata as [|[[t v] i] sdata]; [done|]. done.
  - intros label'. eexists. split; [reflexivity|]. by rewrite !Hsamples.
Qed.

Lemma get_sensor_data_keeps_samples_witness :
  read_csv_usecols fresh ("fresh/" +:+ "run_003.csv")
  = Ok (samples [Row 0 (-3) 12 "run_003.csv" "bias";
                 Row 1 (-3) 13 "run_003.csv" "bias"]) ∧
  Forall (λ r, col_fname r = "run_003.csv" ∧ col_label r = "bias")
    [Row 0 (-3) 12 "run_003.csv" "bias"; Row 1 (-3) 13 "run_003.csv" "bias"] ∧
  ([Row 0 (-3) 12 "run_003.csv" "bias"; Row 1 (-3) 13 "run_003.csv" "bias"] ≠ [] →
   label0 [Row 0 (-3) 12 "run_003.csv" "bias"; Row 1 (-3) 13 "run_003.csv" "bias"]
   = Ok "bias" ∧
   fname0 [Row 0 (-3) 12 "run_003.csv" "bias"; Row 1 (-3) 13 "run_003.csv" "bias"]
   = Ok "run_003.csv") ∧
  (∀ label', ∃ df', get_sensor_data fresh "fresh/" "run_003.csv" label' = Ok df' ∧
     samples df'
     = samples [Row 0 (-3) 12 "run_003.csv" "bias";
                Row 1 (-3) 13 "run_003.csv" "bias"]).
Proof.
  apply (get_sensor_data_keeps_samples fresh "fresh/" "run_003.csv" "bias").
  reflexivity.
Defined.

(** ** Plotting *)

Section PlotFacts.

Context {num : Type} (N : Numeric num).
Implicit Types (dfs : list (DataFrame num)) (df : DataFrame num).
Implicit Types (dict : gmap string string) (calls : list (Plt.call num)).

Lemma times_current df (yfactor : num) (s : Plt.state) :
  Plt.times N (Plt.series df "i") yfactor s
  = (Plt.Done (Plt.scaled N (Plt.series df "i") yfactor), s).
Proof.
  change (Plt.series df "i") with (map (λ r, @Plt.CNum num (col_i r)) df).
  induction df as [|r rows IH]; [done|].
  simpl. unfold Plt.bind. by rewrite IH.
Qed.

Lemma item_at dfs (i : nat) df :
  dfs !! i = Some df →
  getitem (Plt.OneFrame <$> dfs) (Z.of_nat i) = Ok (Plt.OneFrame df).
Proof.
  intros Hdf. apply getitem_range. by rewrite list_lookup_fmap, Hdf.
Qed.

Lemma plot_body_current dfs (xdata : string) (yfactor : num) (points : bool)
    (i : nat) df dict calls :
  dfs !! i = Some df →
  df ≠ [] →
  Plt.is_column xdata = true →
  Plt.plot_body N (Plt.OneFrame <$> dfs) xdata "i" yfactor points i (dict, calls)
  = (Plt.Done (),
     (match Plt.unit_of N yfactor with
      | Some u => <["i" := u]> dict
      | None => dict
      end,
      calls ++ Plt.current_calls N xdata yfactor points df)).
Proof.
  intros Hdf Hne Hx. destruct df as [|r rows]; [done|].
  unfold Plt.plot_body, Plt.current_calls, Plt.unit_of.
  change (String.eqb "i" "i") with true. cbv iota.
  unfold Plt.bind at 1.
  assert (Hrest : ∀ s : Plt.state,
    (Plt.bind (Plt.lift (getitem (Plt.OneFrame <$> dfs) (Z.of_nat i))) (λ dx,
     Plt.bind (Plt.subscript dx xdata) (λ x,
     Plt.bind (Plt.lift (getitem (Plt.OneFrame <$> dfs) (Z.of_nat i))) (λ dy,
     Plt.bind (Plt.subscript dy "i") (λ y,
     Plt.bind (Plt.times N y yfactor) (λ scaled,
     Plt.bind (Plt.lift (getitem (Plt.OneFrame <$> dfs) (Z.of_nat i))) (λ dl,
     Plt.bind (Plt.label_of dl) (λ l,
     Plt.plot points x scaled l)))))))) s
    = (Plt.Done (),
       (s.1, s.2 ++ [Plt.current_line N xdata yfactor points (r :: rows)]))).
  { intros s. rewrite (item_at dfs i (r :: rows) Hdf).
    unfold Plt.bind at 1, Plt.lift at 1.
    unfold Plt.bind at 1, Plt.subscript at 1. rewrite Hx. unfold Plt.ret at 1.
    unfold Plt.bind at 1, Plt.lift at 1.
    unfold Plt.bind at 1, Plt.subscript at 1.
    change (Plt.is_column "i") with true. cbv iota. unfold Plt.ret at 1.
    unfold Plt.bind at 1. rewrite times_current.
    unfold Plt.bind at 1, Plt.lift at 1.
    reflexivity. }
  destruct (num_eqb N yfactor (num_1 N));
    [|destruct (num_eqb N yfactor (num_1e6 N));
      [|destruct (num_eqb N yfactor (num_1e9 N))]];
    simpl; rewrite Hrest; simpl; try reflexivity.
  by rewrite <- app_assoc.
Qed.

Lemma plot_body_plain dfs (xdata ydata : string) (yfactor : num) (points : bool)
    (i : nat) df dict calls :
  dfs !! i = Some df →
  df ≠ [] →
  Plt.is_column xdata = true →
  Plt.is_column ydata = true →
  String.eqb ydata "i" = false →
  Plt.plot_body N (Plt.OneFrame <$> dfs) xdata ydata yfactor points i (dict, calls)
  = (Plt.Done (), (dict, calls ++ [Plt.plain_line xdata ydata points df])).
Proof.
  intros Hdf Hne Hx Hy Hnot. destruct df as [|r rows]; [done|].
  unfold Plt.plot_body. rewrite Hnot, (item_at dfs i (r :: rows) Hdf).
  unfold Plt.bind at 1, Plt.lift at 1.
  unfold Plt.bind at 1, Plt.subscript at 1. rewrite Hx. unfold Plt.ret at 1.
  unfold Plt.bind at 1, Plt.lift at 1.
  unfold Plt.bind at 1, Plt.subscript at 1. rewrite Hy. unfold Plt.ret at 1.
  unfold Plt.bind at 1, Plt.lift at 1.
  reflexivity.
Qed.

Lemma plot_loop_current dfs (xdata : string) (yfactor : num) (points : bool) m :
  ∀ k dict calls,
  (k + m ≤ length dfs)%nat →
  Forall (λ df, df ≠ []) dfs →
  Plt.is_column xdata = true →
  ∃ dict',
    Plt.for_each (Plt.plot_body N (Plt.OneFrame <$> dfs) xdata "i" yfactor points)
      (seq k m) (dict, calls)
    = (Plt.Done (),
       (dict', calls ++ (take m (drop k dfs)
                           ≫= Plt.current_calls N xdata yfactor points))) ∧
    (∀ key, key ≠ "i" → dict' !! key = dict !! key) ∧
    dict' !! "i" = match m, Plt.unit_of N yfactor with
                   | S _, Some u => Some u
                   | _, _ => dict !! "i"
                   end.
Proof.
  induction m as [|m IH]; intros k dict calls Hlen Hrows Hx.
  - exists dict. simpl. unfold Plt.ret. by rewrite app_nil_r.
  - destruct (lookup_lt_is_Some_2 dfs k) as [df Hdf]; [lia|].
    pose proof (Forall_lookup_1 _ dfs k df Hrows Hdf) as Hne. simpl in Hne.
    rewrite (drop_S _ _ _ Hdf). simpl. unfold Plt.bind at 1.
    rewrite (plot_body_current dfs xdata yfactor points k df dict calls Hdf Hne Hx).
    destruct (IH (S k)
                (match Plt.unit_of N yfactor with
                 | Some u => <["i" := u]> dict
                 | None => dict
                 end)
                (calls ++ Plt.current_calls N xdata yfactor points df))
      as (dict' & -> & Hother & Hi); [lia|done|done|].
    exists dict'. split; [by rewrite <- app_assoc|]. split.
    + intros key Hkey. rewrite (Hother key Hkey).
      destruct (Plt.unit_of N yfactor); [by rewrite lookup_insert_ne|done].
    + rewrite Hi. destruct (Plt.unit_of N yfactor) as [u|]; [|by destruct m].
      destruct m; [by rewrite lookup_insert_eq|done].
Qed.

Lemma plot_loop_plain dfs (xdata ydata : string) (yfactor : num) (points : bool) m :
  ∀ k dict calls,
  (k + m ≤ length dfs)%nat →
  Forall (λ df, df ≠ []) dfs →
  Plt.is_column xdata = true →
  Plt.is_column ydata = true →
  String.eqb ydata "i" = false →
  Plt.for_each (Plt.plot_body N (Plt.OneFrame <$> dfs) xdata ydata yfactor points)
    (seq k m) (dict, calls)
  = (Plt.Done (),
     (dict, calls ++ (Plt.plain_line xdata ydata points <$> take m (drop k dfs)))).
Proof.
  induction m as [|m IH]; intros k dict calls Hlen Hrows Hx Hy Hnot.
  - simpl. unfold Plt.ret. by rewrite app_nil_r.
  - destruct (lookup_lt_is_Some_2 dfs k) as [df Hdf]; [lia|].
    pose proof (Forall_lookup_1 _ dfs k df Hrows Hdf) as Hne. simpl in Hne.
    rewrite (drop_S _ _ _ Hdf). simpl. unfold Plt.bind at 1.
    rewrite (plot_body_plain dfs xdata ydata yfactor points k df dict calls)
      by done.
    rewrite IH by (done || lia). by rewrite <- app_assoc.
Qed.

End PlotFacts.

Section PlotRuns.

Context {num : Type} (N : Numeric num).
Implicit Types (dfs : list (DataFrame num)) (df : DataFrame num).

(** The dictionary of line 162. *)
Lemma label_dict_lookup (key : string) :
  (<["t_s" := "Time [s]"]> (<["v" := "V [V]"]> (∅ : gmap string string))) !! key
  = if String.eqb key "t_s" then Some "Time [s]"
    else if String.eqb key "v" then Some "V [V]" else None.
Proof.
  destruct (String.eqb_spec key "t_s") as [->|Ht]; [by rewrite lookup_insert_eq|].
  rewrite lookup_insert_ne by done.
  destruct (String.eqb_spec key "v") as [->|Hv]; [by rewrite lookup_insert_eq|].
  by rewrite lookup_insert_ne.
Qed.

Lemma plot_dfs_small dfs (xdata ydata : string) (yfactor : num) (points : bool)
    (before : list (Plt.call num)) :
  (length dfs ≤ 50)%nat →
  Plt.plot_dfs N dfs xdata ydata yfactor points before
  = let '(r, (_, after)) :=
      Plt.bind
        (Plt.for_each
           (Plt.plot_body N (Plt.OneFrame <$> dfs) xdata ydata yfactor points)
           (seq 0 (length dfs)))
        (λ _, Plt.bind (Plt.get_label ydata) (λ ly,
              Plt.bind (Plt.emit (Plt.Ylabel ly)) (λ _,
              Plt.bind (Plt.get_label xdata) (λ lx,
              Plt.bind (Plt.emit (Plt.Xlabel lx)) (λ _,
              Plt.bind (Plt.emit (Plt.Legend "best" 10)) (λ _,
              Plt.emit Plt.ShowFigure))))))
        (<["t_s" := "Time [s]"]> (<["v" := "V [V]"]> ∅), before) in
    (r, after).
Proof.
  intros Hlen. unfold Plt.plot_dfs, range.
  destruct (Nat.ltb_spec 50 (length dfs)); [lia|]. reflexivity.
Qed.

End PlotRuns.

(** X18.  On a collection of more than 50 records [plot_dfs] draws
    nothing: the loop runs once over the list of all records, which takes
    no column name as subscript, and the call raises TypeError at the
    first [plt.plot], whatever the axes, the factor and [points] are.
    Before that, only the NOTE about the factor may have been printed. *)
Theorem plot_dfs_large_collection {num} (N : Numeric num)
    (dfs : list (DataFrame num)) (xdata ydata : string) (yfactor : num)
    (points : bool) (before : list (Plt.call num)) :
  (50 < length dfs)%nat →
  Plt.plot_dfs N dfs xdata ydata yfactor points before
  = (Plt.Failed Plt.TypeError,
     before ++ if String.eqb ydata "i"
               then match Plt.unit_of N yfactor with
                    | Some _ => []
                    | None => [Plt.Note yfactor]
                    end
               else []).
Proof.
  intros Hlen. unfold Plt.plot_dfs.
  destruct (Nat.ltb_spec 50 (length dfs)); [|lia].
  unfold range. simpl seq. unfold Plt.for_each, Plt.plot_body, Plt.unit_of.
  destruct (String.eqb ydata "i").
  - destruct (num_eqb N yfactor (num_1 N));
      [|destruct (num_eqb N yfactor (num_1e6 N));
        [|destruct (num_eqb N yfactor (num_1e9 N))]];
      simpl; by rewrite ?app_nil_r.
  - simpl. by rewrite app_nil_r.
Qed.

Lemma plot_dfs_large_collection_witness :
  Plt.plot_dfs whole_numbers (replicate 51 (run "a.csv" "a")) "t_s" "i" 7 false []
  = (Plt.Failed Plt.TypeError,
     [] ++ if String.eqb "i" "i"
           then match Plt.unit_of whole_numbers 7 with
                | Some _ => []
                | None => [Plt.Note 7]
                end
           else []).
Proof.
  apply (plot_dfs_large_collection whole_numbers (replicate 51 (run "a.csv" "a"))
           "t_s" "i" 7 false []).
  rewrite length_replicate. lia.
Defined.

(** X19.  The documented use.  For at least one and at most 50 records
    that all have a line, the time or the voltage on the x axis, the
    current on the y axis and a factor of 1, 1e6 or 1e9, [plot_dfs] draws
    one line per record in the order of the collection - the x column
    against the current times the factor, legended by the label of the
    record - then names the y axis after the unit of the factor and the x
    axis after its column, places the legend and shows the figure. *)
Theorem plot_dfs_current {num} (N : Numeric num) (dfs : list (DataFrame num))
    (xdata : string) (yfactor : num) (points : bool) (u : string)
    (before : list (Plt.call num)) :
  (length dfs ≤ 50)%nat →
  dfs ≠ [] →
  Forall (λ df, df ≠ []) dfs →
  xdata = "t_s" ∨ xdata = "v" →
  Plt.unit_of N yfactor = Some u →
  Plt.plot_dfs N dfs xdata "i" yfactor points before
  = (Plt.Done (),
     before ++ (Plt.current_line N xdata yfactor points <$> dfs)
       ++ [Plt.Ylabel u; Plt.Xlabel (Plt.axis_text xdata);
           Plt.Legend "best" 10; Plt.ShowFigure]).
Proof.
  intros Hlen Hsome Hrows Hx Hu.
  assert (Hcol : Plt.is_column xdata = true) by (by destruct Hx as [->| ->]).
  assert (Hxi : xdata ≠ "i") by (by destruct Hx as [->| ->]).
  rewrite plot_dfs_small by done.
  destruct (plot_loop_current N dfs xdata yfactor points (length dfs) 0
              (<["t_s" := "Time [s]"]> (<["v" := "V [V]"]> ∅)) before)
    as (dict' & Hloop & Hother & Hi); [lia|done|done|].
  rewrite drop_0, firstn_all in Hloop.
  unfold Plt.bind at 1. rewrite Hloop.
  unfold Plt.bind at 1, Plt.get_label at 1. simpl fst. rewrite Hi, Hu.
  destruct (length dfs) eqn:Hn; [by destruct dfs|].
  unfold Plt.bind at 1, Plt.emit at 1.
  unfold Plt.bind at 1, Plt.get_label at 1. simpl fst.
  rewrite (Hother xdata Hxi), label_dict_lookup.
  assert (Hlines : dfs ≫= Plt.current_calls N xdata yfactor points
                   = Plt.current_line N xdata yfactor points <$> dfs).
  { unfold Plt.current_calls. rewrite Hu. clear.
    induction dfs as [|d dfs IH]; [done|]. cbn. by f_equal. }
  rewrite Hlines.
  destruct Hx as [-> | ->]; simpl; by rewrite <- !app_assoc.
Qed.

Lemma plot_dfs_current_witness :
  Plt.plot_dfs whole_numbers six_runs "t_s" "i" 1000000 false []
  = (Plt.Done (),
     [] ++ (Plt.current_line whole_numbers "t_s" 1000000 false <$> six_runs)
       ++ [Plt.Ylabel "I [$\mu$A]"; Plt.Xlabel (Plt.axis_text "t_s");
           Plt.Legend "best" 10; Plt.ShowFigure]).
Proof.
  apply (plot_dfs_current whole_numbers six_runs "t_s" 1000000 false
           "I [$\mu$A]" []).
  - simpl. lia.
  - discriminate.
  - repeat constructor; discriminate.
  - by left.
  - reflexivity.
Defined.

(** X20.  With the current on the y axis, the y axis has a name only if
    the loop ran with a factor of 1, 1e6 or 1e9.  For any other factor,
    and for an empty collection whatever the factor, [plot_dfs] raises
    KeyError at [plt.ylabel]: the lines are drawn, each after a NOTE about
    the factor, but no axis is named, no legend placed and the figure is
    not shown. *)
Theorem plot_dfs_no_unit {num} (N : Numeric num) (dfs : list (DataFrame num))
    (xdata : string) (yfactor : num) (points : bool)
    (before : list (Plt.call num)) :
  (length dfs ≤ 50)%nat →
  Forall (λ df, df ≠ []) dfs →
  Plt.is_column xdata = true →
  Plt.unit_of N yfactor = None ∨ dfs = [] →
  Plt.plot_dfs N dfs xdata "i" yfactor points before
  = (Plt.Failed (Plt.Py KeyError),
     before ++ (dfs ≫= Plt.current_calls N xdata yfactor points)).
Proof.
  intros Hlen Hrows Hcol Hno.
  rewrite plot_dfs_small by done.
  destruct (plot_loop_current N dfs xdata yfactor points (length dfs) 0
              (<["t_s" := "Time [s]"]> (<["v" := "V [V]"]> ∅)) before)
    as (dict' & Hloop & Hother & Hi); [lia|done|done|].
  rewrite drop_0, firstn_all in Hloop.
  unfold Plt.bind at 1. rewrite Hloop.
  unfold Plt.bind at 1, Plt.get_label at 1. simpl fst. rewrite Hi.
  assert (Hnone : match length dfs, Plt.unit_of N yfactor with
                  | S _, Some u => Some u
                  | _, _ => (<["t_s" := "Time [s]"]>
                               (<["v" := "V [V]"]> (∅ : gmap string string))) !! "i"
                  end = None).
  { destruct Hno as [-> | ->]; [by destruct (length dfs)|done]. }
  by rewrite Hnone.
Qed.

Lemma plot_dfs_no_unit_witness :
  Plt.plot_dfs whole_numbers six_runs "t_s" "i" 1000 false []
  = (Plt.Failed (Plt.Py KeyError),
     [] ++ (six_runs ≫= Plt.current_calls whole_numbers "t_s" 1000 false)).
Proof.
  apply (plot_dfs_no_unit whole_numbers six_runs "t_s" 1000 false []).
  - simpl. lia.
  - repeat constructor; discriminate.
  - reflexivity.
  - by left.
Defined.

(** X21.  With the time or the voltage on both axes, [plot_dfs] on at
    most 50 records that all have a line - none is allowed - draws one
    line per record, names both axes, places the legend and shows the
    figure; the factor plays no part and the y values are not scaled. *)
Theorem plot_dfs_plain {num} (N : Numeric num) (dfs : list (DataFrame num))
    (xdata ydata : string) (yfactor : num) (points : bool)
    (before : list (Plt.call num)) :
  (length dfs ≤ 50)%nat →
  Forall (λ df, df ≠ []) dfs →
  xdata = "t_s" ∨ xdata = "v" →
  ydata = "t_s" ∨ ydata = "v" →
  Plt.plot_dfs N dfs xdata ydata yfactor points before
  = (Plt.Done (),
     before ++ (Plt.plain_line xdata ydata points <$> dfs)
       ++ [Plt.Ylabel (Plt.axis_text ydata); Plt.Xlabel (Plt.axis_text xdata);
           Plt.Legend "best" 10; Plt.ShowFigure]).
Proof.
  intros Hlen Hrows Hx Hy.
  rewrite plot_dfs_small by done.
  unfold Plt.bind at 1.
  rewrite (plot_loop_plain N dfs xdata ydata yfactor points (length dfs) 0);
    [|lia|done|by destruct Hx as [->| ->]|by destruct Hy as [->| ->]
     |by destruct Hy as [->| ->]].
  rewrite drop_0, firstn_all.
  unfold Plt.bind at 1, Plt.get_label at 1. simpl fst. rewrite label_dict_lookup.
  destruct Hy as [-> | ->]; simpl;
    unfold Plt.bind at 1, Plt.emit at 1;
    unfold Plt.bind at 1, Plt.get_label at 1; simpl fst;
    rewrite label_dict_lookup;
    destruct Hx as [-> | ->]; simpl; by rewrite <- !app_assoc.
Qed.

Lemma plot_dfs_plain_witness :
  Plt.plot_dfs whole_numbers six_runs "t_s" "v" 1000 true []
  = (Plt.Done (),
     [] ++ (Plt.plain_line "t_s" "v" true <$> six_runs)
       ++ [Plt.Ylabel (Plt.axis_text "v"); Plt.Xlabel (Plt.axis_text "t_s");
           Plt.Legend "best" 10; Plt.ShowFigure]).
Proof.
  apply (plot_dfs_plain whole_numbers six_runs "t_s" "v" 1000 true []).
  - simpl. lia.
  - repeat constructor; discriminate.
  - by left.
  - by right.
Defined.

Section BuilderAtEof.

Context {num : Type}.
Implicit Types (ext : Extern num) (dfs : list (DataFrame num)).
Implicit Types (rows : NotesFrame) (file path : string) (files : list string).

Lemma try_file_at_eof ext path rows file out hdfs :
  contains (Series_str ext rows.*1) file = true →
  ∃ e, try_file ext path (Notes rows) file (mkWorld [] out hdfs)
       = (Raise e, mkWorld [] (out ++ dialogue rows file) hdfs).
Proof.
  intros Hsub. unfold try_file, bind. rewrite resolve_label_cases, Hsub.
  unfold dialogue.
  destruct (first_row rows file) as [[n [f d]]|].
  - exists EOFError. unfold input, printed. simpl. by rewrite <- app_assoc.
  - exists IndexError. by rewrite app_nil_r.
Qed.

Lemma scan_at_eof ext path rows files : ∀ dfs out hdfs,
  scan ext path (Notes rows) files dfs (mkWorld [] out hdfs)
  = (dfs ++ omap (load_unasked ext path rows) (filter (λ f, is_csv f) files),
     mkWorld []
       (out ++ (filter (λ f, looked_up ext rows f) files ≫= dialogue rows)) hdfs).
Proof.
  induction files as [|file files IH]; intros dfs out hdfs.
  - simpl. by rewrite !app_nil_r.
  - destruct (endswith file ".csv") eqn:Hcsv.
    + rewrite (filter_cons_True (λ f, is_csv f))
        by (unfold is_csv; by rewrite Hcsv).
      simpl. rewrite Hcsv. unfold load_unasked at 1.
      destruct (contains (Series_str ext rows.*1) file) eqn:Hsub.
      * rewrite (filter_cons_True (λ f, looked_up ext rows f))
          by (unfold looked_up, is_csv; by rewrite Hcsv, Hsub).
        destruct (try_file_at_eof ext path rows file out hdfs Hsub) as [e ->].
        rewrite IH. cbn. by rewrite <- app_assoc.
      * rewrite (filter_cons_False (λ f, looked_up ext rows f))
          by (unfold looked_up, is_csv; rewrite Hcsv, Hsub; simpl; tauto).
        rewrite try_file_unlisted by done. unfold load_with. simpl.
        destruct (get_sensor_data ext path file default_label) as [df|e];
          rewrite IH; by rewrite <- ?app_assoc.
    + rewrite (filter_cons_False (λ f, is_csv f))
        by (unfold is_csv; rewrite Hcsv; simpl; tauto).
      rewrite (filter_cons_False (λ f, looked_up ext rows f))
        by (unfold looked_up, is_csv; rewrite Hcsv; simpl; tauto).
      simpl. rewrite Hcsv. apply IH.
Qed.

End BuilderAtEof.

(** X22.  With the notes present and no typed line left, every file the
    run looks up in the notes is lost: if the notes have a line for it the
    question is shown and [input] raises EOFError, otherwise IndexError is
    raised, and either way the file is skipped.  The collection holds the
    readable [.csv] entries whose names do not occur in the text
    [str(notes.filename)], under the label 'not in notes', and the run
    still returns normally. *)
Theorem get_all_raw_ivs_at_end_of_input {num} (ext : Extern num) path notesname
    rows files (w : World num) :
  get_notes ext (path +:+ notesname) = Ok rows →
  os_listdir ext path = Ok files →
  stdin w = [] →
  get_all_raw_ivs ext path notesname w
  = (Ok (Notes rows,
         omap (load_unasked ext path rows) (filter (λ f, is_csv f) files)),
     mkWorld []
       (stdout w ++ (filter (λ f, looked_up ext rows f) files ≫= dialogue rows))
       (hdf w)).
Proof.
  intros Hnotes Hdir Heof.
  rewrite (get_all_raw_ivs_with_notes _ _ _ _ _ _ Hnotes Hdir).
  destruct w as [lines out hdfs]. simpl in *. subst lines.
  by rewrite scan_at_eof.
Qed.

Lemma get_all_raw_ivs_at_end_of_input_witness :
  get_all_raw_ivs field "field/" "notes.csv" (typing [])
  = (Ok (Notes field_notes,
         omap (load_unasked field "field/" field_notes)
           (filter (λ f, is_csv f) ["run_003.csv"; "run_03.csv"; "notes.csv"])),
     mkWorld []
       (stdout (typing [])
        ++ (filter (λ f, looked_up field field_notes f)
              ["run_003.csv"; "run_03.csv"; "notes.csv"] ≫= dialogue field_notes))
       (hdf (typing []))).
Proof.
  apply (get_all_raw_ivs_at_end_of_input field "field/" "notes.csv" field_notes
           ["run_003.csv"; "run_03.csv"; "notes.csv"] (typing []));
    reflexivity.
Defined.

(** ** Persisting and reloading *)

Section HdfFacts.

Context {num : Type} (P : Hdf.Pandas num).
Implicit Types (s : Hdf.Session num) (df : DataFrame num).
Implicit Types (dfs : list (DataFrame num)) (store : gmap string (DataFrame num)).

Lemma flat_insert store (l : string) df :
  Hdf.flat store → Hdf.no_slash l = true → Hdf.flat (<[Hdf.node l := df]> store).
Proof.
  intros Hflat Hl key Hkey.
  destruct (decide (Hdf.node l = key)) as [<-|Hne]; [by exists l|].
  rewrite lookup_insert_ne in Hkey by done. by apply Hflat.
Qed.

Lemma stored_last_snoc (key : string) dfs df :
  Hdf.stored_last key (dfs ++ [df])
  = if Hdf.stored_under key df then Some df else Hdf.stored_last key dfs.
Proof. unfold Hdf.stored_last. by rewrite foldl_snoc. Qed.

Lemma written_snoc store dfs df :
  Hdf.written store (dfs ++ [df])
  = match label0 df with
    | Ok l => <[Hdf.node l := df]> (Hdf.written store dfs)
    | Raise _ => Hdf.written store dfs
    end.
Proof. unfold Hdf.written. by rewrite foldl_snoc. Qed.

Lemma written_stored_last store dfs (key : string) :
  Hdf.written store dfs !! key
  = match Hdf.stored_last key dfs with
    | Some df => Some df
    | None => store !! key
    end.
Proof.
  induction dfs as [|d dfs IH] using rev_ind; [done|].
  rewrite written_snoc, stored_last_snoc. unfold Hdf.stored_under.
  destruct (label0 d) as [l|e]; [|exact IH].
  destruct (String.eqb_spec (Hdf.node l) key) as [->|Hne].
  - by rewrite lookup_insert_eq.
  - by rewrite lookup_insert_ne.
Qed.

Lemma written_again store dfs :
  Hdf.written (Hdf.written store dfs) dfs = Hdf.written store dfs.
Proof.
  apply map_eq. intros key. rewrite !written_stored_last.
  by destruct (Hdf.stored_last key dfs).
Qed.

Lemma written_flat dfs : ∀ store,
  Hdf.flat store → Forall (Hdf.storable P) dfs → Hdf.flat (Hdf.written store dfs).
Proof.
  induction dfs as [|d dfs IH]; intros store Hflat Hall; [done|].
  apply Forall_cons in Hall as [(l & Hl & Hslash & _) Hall].
  simpl. rewrite Hl. apply IH; [by apply flat_insert|done].
Qed.

Lemma save_body_row dfs (filename : string) (i : nat) r rows s :
  dfs !! i = Some (r :: rows) →
  Hdf.accepts P (col_label r) →
  Hdf.flat (store_of (Hdf.world s) filename) →
  Hdf.save_body P dfs filename i s
  = (Hdf.Done (),
     Hdf.mkSession
       (mkWorld (stdin (Hdf.world s))
          (stdout (Hdf.world s)
           ++ [Print [PStr ("Saved " +:+ col_label r +:+ " dataframe to "
                            +:+ filename)]])
          (<[filename := <[Hdf.node (col_label r) := r :: rows]>
                           (store_of (Hdf.world s) filename)]>
             (hdf (Hdf.world s))))
       (Hdf.held s)).
Proof.
  intros Hdf Hacc Hflat. unfold Hdf.save_body, Hdf.bind, Hdf.lift.
  rewrite (getitem_range (DataFrame num) dfs i (r :: rows) Hdf). simpl.
  unfold Hdf.to_hdf. by rewrite (Hacc _ (r :: rows) Hflat).
Qed.

Lemma save_loop dfs (filename : string) m : ∀ k s,
  (k + m ≤ length dfs)%nat →
  Forall (Hdf.storable P) dfs →
  Hdf.flat (store_of (Hdf.world s) filename) →
  ∃ s',
    Hdf.for_each (Hdf.save_body P dfs filename) (seq k m) s = (Hdf.Done (), s') ∧
    stdin (Hdf.world s') = stdin (Hdf.world s) ∧
    Hdf.held s' = Hdf.held s ∧
    stdout (Hdf.world s')
    = stdout (Hdf.world s) ++ omap (saved_line filename) (take m (drop k dfs)) ∧
    hdf (Hdf.world s')
    = match take m (drop k dfs) with
      | [] => hdf (Hdf.world s)
      | saved =>
          <[filename := Hdf.written (store_of (Hdf.world s) filename) saved]>
            (hdf (Hdf.world s))
      end.
Proof.
  induction m as [|m IH]; intros k s Hlen Hall Hflat.
  - exists s. simpl. by rewrite app_nil_r.
  - destruct (lookup_lt_is_Some_2 dfs k) as [df Hdf]; [lia|].
    destruct (Forall_lookup_1 _ dfs k df Hall Hdf) as (l & Hl & Hslash & Hacc).
    destruct df as [|r rows]; [discriminate|]. simpl in Hl. injection Hl as <-.
    rewrite (drop_S _ _ _ Hdf). simpl. unfold Hdf.bind at 1.
    rewrite (save_body_row _ _ _ _ _ _ Hdf Hacc Hflat).
    match goal with
    | |- context [Hdf.for_each _ _ ?s1] =>
        destruct (IH (S k) s1) as (s' & -> & Hin & Hheld & Hout & Hhdf);
          [lia|done| |]
    end.
    { unfold store_of at 1. simpl. rewrite lookup_insert_eq. simpl.
      by apply flat_insert. }
    exists s'. split; [done|]. split; [done|]. split; [done|]. split.
    + rewrite Hout. simpl. by rewrite <- app_assoc.
    + destruct (take m (drop (S k) dfs)) as [|d rest]; rewrite Hhdf; [done|].
      unfold store_of at 1. simpl. rewrite lookup_insert_eq. simpl.
      by rewrite insert_insert_eq.
Qed.

Lemma save_dfs_session dfs (filename : string) s :
  Forall (Hdf.storable P) dfs →
  Hdf.flat (store_of (Hdf.world s) filename) →
  ∃ s',
    Hdf.save_dfs P dfs filename s = (Hdf.Done (), s') ∧
    stdin (Hdf.world s') = stdin (Hdf.world s) ∧
    Hdf.held s' = Hdf.held s ∧
    stdout (Hdf.world s')
    = stdout (Hdf.world s) ++ omap (saved_line filename) dfs ∧
    hdf (Hdf.world s')
    = match dfs with
      | [] => hdf (Hdf.world s)
      | _ => <[filename := Hdf.written (store_of (Hdf.world s) filename) dfs]>
               (hdf (Hdf.world s))
      end.
Proof.
  intros Hall Hflat.
  destruct (save_loop dfs filename (length dfs) 0 s)
    as (s' & Hsave & Hin & Hheld & Hout & Hhdf); [lia|done|done|].
  rewrite drop_0, firstn_all in Hout, Hhdf. exists s'.
  split; [done|]. split; [done|]. split; [done|]. split; [done|].
  rewrite Hhdf. by destruct dfs.
Qed.

Lemma store_after_save dfs (filename : string) s s' :
  hdf (Hdf.world s')
  = match dfs with
    | [] => hdf (Hdf.world s)
    | _ => <[filename := Hdf.written (store_of (Hdf.world s) filename) dfs]>
             (hdf (Hdf.world s))
    end →
  store_of (Hdf.world s') filename
  = Hdf.written (store_of (Hdf.world s) filename) dfs.
Proof.
  intros Hhdf. unfold store_of at 1. rewrite Hhdf.
  destruct dfs as [|d dfs]; [done|]. by rewrite lookup_insert_eq.
Qed.

(** Lines 244-248: the store opened at line 245 is still open when line
    247 opens the file again. *)
Lemma read_ivs_held (filename : string) s :
  Hdf.read_ivs filename s
  = (match Hdf.keys (store_of (Hdf.world s) filename) with
     | [] => Hdf.Done []
     | _ :: _ => Hdf.Failed (Hdf.Py ValueError)
     end,
     Hdf.mkSession
       (Hdf.world (Hdf.with_store s filename (store_of (Hdf.world s) filename)))
       (filename :: Hdf.held s)).
Proof.
  unfold Hdf.read_ivs, Hdf.bind, Hdf.HDFStore.
  destruct (Hdf.keys (store_of (Hdf.world s) filename)) as [|key ks]; [done|].
  simpl. unfold Hdf.bind, Hdf.read_hdf. simpl.
  rewrite bool_decide_true by left. done.
Qed.

Lemma keys_written_nonempty store dfs :
  dfs ≠ [] → Forall (Hdf.storable P) dfs → Hdf.keys (Hdf.written store dfs) ≠ [].
Proof.
  intros Hne Hall Hkeys.
  destruct dfs as [|d dfs _] using rev_ind; [done|].
  apply Forall_app in Hall as [_ Hd]. rewrite Forall_singleton in Hd.
  destruct Hd as (l & Hl & _).
  assert (Hin : Hdf.written store (dfs ++ [d]) !! Hdf.node l = Some d).
  { rewrite written_snoc, Hl. apply lookup_insert_eq. }
  unfold Hdf.keys in Hkeys. apply fmap_nil_inv in Hkeys.
  apply map_to_list_empty_iff in Hkeys. rewrite Hkeys in Hin.
  by rewrite lookup_empty in Hin.
Qed.

End HdfFacts.

(** Every record of the sample collections is one the sample pandas
    stores. *)
Ltac sample_storable :=
  repeat constructor; eexists;
  (split; [reflexivity|split; [reflexivity|intros ? ? ?; reflexivity]]).

Lemma flat_empty {num} : Hdf.flat (∅ : gmap string (DataFrame num)).
Proof. intros key [df Hdf]. by rewrite lookup_empty in Hdf. Qed.

Lemma flat_archive : Hdf.flat (store_of (Hdf.world archive) "tests.h5").
Proof.
  intros key [df Hdf]. unfold store_of, archive in Hdf. simpl in Hdf.
  rewrite lookup_singleton_eq in Hdf. simpl in Hdf.
  apply lookup_singleton_Some in Hdf as [<- _]. by exists "old".
Qed.

(** C3, the code on any collection that is not empty.  Take records that
    all have a line and a label that pandas takes as it is, and a file
    without nested groups (one that does not exist yet, for instance).
    [save_dfs] stores them, but [read_ivs] then raises ValueError and
    reloads nothing: the store it opens for appending at line 245 is never
    closed, and [pd.read_hdf] at line 247 opens the same file read-only,
    which PyTables refuses.  The file is left as the save left it, held
    open. *)
Theorem reload_after_save_raises {num} (P : Hdf.Pandas num)
    (dfs : list (DataFrame num)) (filename : string) (s : Hdf.Session num) :
  dfs ≠ [] →
  Forall (Hdf.storable P) dfs →
  Hdf.flat (store_of (Hdf.world s) filename) →
  ∃ s1 s2,
    Hdf.save_dfs P dfs filename s = (Hdf.Done (), s1) ∧
    store_of (Hdf.world s1) filename
    = Hdf.written (store_of (Hdf.world s) filename) dfs ∧
    Hdf.read_ivs filename s1 = (Hdf.Failed (Hdf.Py ValueError), s2) ∧
    store_of (Hdf.world s2) filename = store_of (Hdf.world s1) filename ∧
    Hdf.held s2 = filename :: Hdf.held s1.
Proof.
  intros Hne Hall Hflat.
  destruct (save_dfs_session P dfs filename s Hall Hflat)
    as (s1 & Hsave & _ & _ & _ & Hhdf).
  pose proof (store_after_save dfs filename s s1 Hhdf) as Hstore.
  exists s1. eexists. split; [exact Hsave|]. split; [exact Hstore|].
  rewrite read_ivs_held, Hstore.
  pose proof (keys_written_nonempty P (store_of (Hdf.world s) filename) dfs Hne Hall)
    as Hkeys.
  destruct (Hdf.keys _) as [|key ks]; [done|].
  split; [reflexivity|]. split; [|reflexivity].
  unfold store_of at 1. simpl. by rewrite lookup_insert_eq.
Qed.

Lemma reload_after_save_raises_witness :
  ∃ s1 s2,
    Hdf.save_dfs sample_pandas [run "a.csv" "a"] "tests.h5" fresh_session
    = (Hdf.Done (), s1) ∧
    store_of (Hdf.world s1) "tests.h5"
    = Hdf.written (store_of (Hdf.world fresh_session) "tests.h5") [run "a.csv" "a"] ∧
    Hdf.read_ivs "tests.h5" s1 = (Hdf.Failed (Hdf.Py ValueError), s2) ∧
    store_of (Hdf.world s2) "tests.h5" = store_of (Hdf.world s1) "tests.h5" ∧
    Hdf.held s2 = "tests.h5" :: Hdf.held s1.
Proof.
  apply (reload_after_save_raises sample_pandas [run "a.csv" "a"] "tests.h5"
           fresh_session).
  - discriminate.
  - sample_storable.
  - apply flat_empty.
Defined.

Section HdfLoops.

Context {num : Type} (P : Hdf.Pandas num).
Implicit Types (s : Hdf.Session num) (dfs : list (DataFrame num)).

Lemma hdf_for_each_app {X} (body : X → Hdf.H ()) (xs ys : list X) s :
  Hdf.for_each body (xs ++ ys) s =
  match Hdf.for_each body xs s with
  | (Hdf.Done _, s') => Hdf.for_each body ys s'
  | (Hdf.Failed e, s') => (Hdf.Failed e, s')
  end.
Proof.
  revert s. induction xs as [|x xs IH]; intros s; [done|].
  simpl. unfold Hdf.bind. destruct (body x s) as [[[]|e] s']; [apply IH|done].
Qed.

Lemma hdf_for_each_ext {X} (body body' : X → Hdf.H ()) (xs : list X) s :
  (∀ x s', x ∈ xs → body x s' = body' x s') →
  Hdf.for_each body xs s = Hdf.for_each body' xs s.
Proof.
  revert s. induction xs as [|x xs IH]; intros s Hext; [done|].
  simpl. unfold Hdf.bind. rewrite Hext by left.
  destruct (body' x s) as [[[]|e] s']; [|done].
  apply IH. intros y s'' Hy. apply Hext. by right.
Qed.

Lemma hdf_save_body_prefix (pre post : list (DataFrame num)) (filename : string)
    (i : nat) s :
  (i < length pre)%nat →
  Hdf.save_body P (pre ++ post) filename i s = Hdf.save_body P pre filename i s.
Proof.
  intros Hi. destruct (lookup_lt_is_Some_2 pre i Hi) as [df Hdf].
  unfold Hdf.save_body, Hdf.bind, Hdf.lift.
  rewrite (getitem_range (DataFrame num) (pre ++ post) i df)
    by (by rewrite lookup_app_l).
  by rewrite (getitem_range (DataFrame num) pre i df Hdf).
Qed.

(** The loop of [save_dfs] up to the record after [pre]. *)
Lemma save_dfs_split (pre post : list (DataFrame num)) (d : DataFrame num)
    (filename : string) s s1 :
  Hdf.save_dfs P pre filename s = (Hdf.Done (), s1) →
  Hdf.save_dfs P (pre ++ d :: post) filename s
  = match Hdf.save_body P (pre ++ d :: post) filename (length pre) s1 with
    | (Hdf.Done _, s2) =>
        Hdf.for_each (Hdf.save_body P (pre ++ d :: post) filename)
          (seq (S (length pre)) (length post)) s2
    | (Hdf.Failed e, s2) => (Hdf.Failed e, s2)
    end.
Proof.
  intros Hsave. unfold Hdf.save_dfs, range in *. rewrite length_app. simpl.
  rewrite seq_app, hdf_for_each_app. simpl.
  rewrite (hdf_for_each_ext _ (Hdf.save_body P pre filename)).
  - rewrite Hsave. unfold Hdf.bind at 1.
    by destruct (Hdf.save_body P (pre ++ d :: post) filename (length pre) s1)
      as [[[]|e] s2].
  - intros i s' Hi. apply elem_of_seq in Hi. apply hdf_save_body_prefix. lia.
Qed.

End HdfLoops.

(** X12.  [save_dfs] adds to the file it is given.  After saving records
    that all have a line and a label that pandas takes as it is, into a
    file without nested groups, the file holds under each key the last
    record of the collection put under that key, and under every other
    key what it held before; one 'Saved ...' line is printed per record,
    no other file changes, no typed line is taken and no file is left
    held open. *)
Theorem save_dfs_adds_to_store {num} (P : Hdf.Pandas num)
    (dfs : list (DataFrame num)) (filename : string) (s : Hdf.Session num) :
  Forall (Hdf.storable P) dfs →
  Hdf.flat (store_of (Hdf.world s) filename) →
  ∃ s1,
    Hdf.save_dfs P dfs filename s = (Hdf.Done (), s1) ∧
    stdin (Hdf.world s1) = stdin (Hdf.world s) ∧
    Hdf.held s1 = Hdf.held s ∧
    stdout (Hdf.world s1)
    = stdout (Hdf.world s) ++ omap (saved_line filename) dfs ∧
    (∀ other, other ≠ filename →
              hdf (Hdf.world s1) !! other = hdf (Hdf.world s) !! other) ∧
    (∀ key, store_of (Hdf.world s1) filename !! key
            = match Hdf.stored_last key dfs with
              | Some df => Some df
              | None => store_of (Hdf.world s) filename !! key
              end) ∧
    Hdf.flat (store_of (Hdf.world s1) filename).
Proof.
  intros Hall Hflat.
  destruct (save_dfs_session P dfs filename s Hall Hflat)
    as (s1 & Hsave & Hin & Hheld & Hout & Hhdf).
  pose proof (store_after_save dfs filename s s1 Hhdf) as Hstore.
  exists s1. split; [done|]. split; [done|]. split; [done|]. split; [done|].
  split; [|split].
  - intros other Hne. rewrite Hhdf. destruct dfs; [done|].
    by rewrite lookup_insert_ne.
  - intros key. rewrite Hstore. apply written_stored_last.
  - rewrite Hstore. by apply (written_flat P).
Qed.

Lemma save_dfs_adds_to_store_witness :
  ∃ s1,
    Hdf.save_dfs sample_pandas colliding "tests.h5" archive = (Hdf.Done (), s1) ∧
    stdin (Hdf.world s1) = stdin (Hdf.world archive) ∧
    Hdf.held s1 = Hdf.held archive ∧
    stdout (Hdf.world s1)
    = stdout (Hdf.world archive) ++ omap (saved_line "tests.h5") colliding ∧
    (∀ other, other ≠ "tests.h5" →
              hdf (Hdf.world s1) !! other = hdf (Hdf.world archive) !! other) ∧
    (∀ key, store_of (Hdf.world s1) "tests.h5" !! key
            = match Hdf.stored_last key colliding with
              | Some df => Some df
              | None => store_of (Hdf.world archive) "tests.h5" !! key
              end) ∧
    Hdf.flat (store_of (Hdf.world s1) "tests.h5").
Proof.
  apply (save_dfs_adds_to_store sample_pandas colliding "tests.h5" archive).
  - sample_storable.
  - apply flat_archive.
Defined.

(** X13.  Saving the same collection a second time into the same file
    changes no file: the second call succeeds, prints the same 'Saved ...'
    lines once more, takes no typed line and leaves no file held open. *)
Theorem save_dfs_twice {num} (P : Hdf.Pandas num) (dfs : list (DataFrame num))
    (filename : string) (s : Hdf.Session num) :
  Forall (Hdf.storable P) dfs →
  Hdf.flat (store_of (Hdf.world s) filename) →
  ∃ s1 s2,
    Hdf.save_dfs P dfs filename s = (Hdf.Done (), s1) ∧
    Hdf.save_dfs P dfs filename s1 = (Hdf.Done (), s2) ∧
    hdf (Hdf.world s2) = hdf (Hdf.world s1) ∧
    stdout (Hdf.world s1)
    = stdout (Hdf.world s) ++ omap (saved_line filename) dfs ∧
    stdout (Hdf.world s2)
    = stdout (Hdf.world s1) ++ omap (saved_line filename) dfs ∧
    stdin (Hdf.world s2) = stdin (Hdf.world s) ∧
    Hdf.held s2 = Hdf.held s.
Proof.
  intros Hall Hflat.
  destruct (save_dfs_session P dfs filename s Hall Hflat)
    as (s1 & Hsave1 & Hin1 & Hheld1 & Hout1 & Hhdf1).
  pose proof (store_after_save dfs filename s s1 Hhdf1) as Hstore1.
  assert (Hflat1 : Hdf.flat (store_of (Hdf.world s1) filename)).
  { rewrite Hstore1. by apply (written_flat P). }
  destruct (save_dfs_session P dfs filename s1 Hall Hflat1)
    as (s2 & Hsave2 & Hin2 & Hheld2 & Hout2 & Hhdf2).
  exists s1, s2. split; [done|]. split; [done|].
  split; [|split; [done|split; [done|split; congruence]]].
  rewrite Hhdf2. destruct dfs as [|d dfs]; [done|].
  rewrite Hstore1, written_again, Hhdf1. by rewrite insert_insert_eq.
Qed.

Lemma save_dfs_twice_witness :
  ∃ s1 s2,
    Hdf.save_dfs sample_pandas colliding "tests.h5" archive = (Hdf.Done (), s1) ∧
    Hdf.save_dfs sample_pandas colliding "tests.h5" s1 = (Hdf.Done (), s2) ∧
    hdf (Hdf.world s2) = hdf (Hdf.world s1) ∧
    stdout (Hdf.world s1)
    = stdout (Hdf.world archive) ++ omap (saved_line "tests.h5") colliding ∧
    stdout (Hdf.world s2)
    = stdout (Hdf.world s1) ++ omap (saved_line "tests.h5") colliding ∧
    stdin (Hdf.world s2) = stdin (Hdf.world archive) ∧
    Hdf.held s2 = Hdf.held archive.
Proof.
  apply (save_dfs_twice sample_pandas colliding "tests.h5" archive).
  - sample_storable.
  - apply flat_archive.
Defined.

(** X14.  [save_dfs] does not undo what it wrote.  When a record without
    a line comes after records [pre] that are all stored, the call raises
    KeyError at [label[0]] and leaves everything as a successful save of
    [pre] alone leaves it: those records are in the file and reported,
    the records after the empty one are not written. *)
Theorem save_dfs_stops_at_empty_record {num} (P : Hdf.Pandas num)
    (pre post : list (DataFrame num)) (filename : string) (s : Hdf.Session num) :
  Forall (Hdf.storable P) pre →
  Hdf.flat (store_of (Hdf.world s) filename) →
  Hdf.save_dfs P (pre ++ [] :: post) filename s
  = (Hdf.Failed (Hdf.Py KeyError), snd (Hdf.save_dfs P pre filename s)) ∧
  fst (Hdf.save_dfs P pre filename s) = Hdf.Done ().
Proof.
  intros Hall Hflat.
  destruct (save_dfs_session P pre filename s Hall Hflat) as (s1 & Hsave & _).
  pose proof (save_dfs_split P pre post [] filename s s1 Hsave) as Hsplit.
  rewrite Hsave. split; [|done]. etrans; [exact Hsplit|].
  unfold Hdf.save_body, Hdf.bind, Hdf.lift.
  assert (Hget : getitem (pre ++ ([] : DataFrame num) :: post)
                   (Z.of_nat (length pre)) = Ok []).
  { apply getitem_range. by apply list_lookup_middle. }
  by rewrite Hget.
Qed.

Lemma save_dfs_stops_at_empty_record_witness :
  Hdf.save_dfs sample_pandas ([run "a.csv" "a"] ++ [] :: [run "c.csv" "c"])
    "tests.h5" fresh_session
  = (Hdf.Failed (Hdf.Py KeyError),
     snd (Hdf.save_dfs sample_pandas [run "a.csv" "a"] "tests.h5" fresh_session)) ∧
  fst (Hdf.save_dfs sample_pandas [run "a.csv" "a"] "tests.h5" fresh_session)
  = Hdf.Done ().
Proof.
  apply (save_dfs_stops_at_empty_record sample_pandas [run "a.csv" "a"]
           [run "c.csv" "c"] "tests.h5" fresh_session).
  - sample_storable.
  - apply flat_empty.
Defined.

(** X15.  [read_ivs] reloads nothing.  It opens the file for appending,
    creating it if it does not exist, and never closes it; so it returns
    the empty list when the file holds no key, and raises ValueError at
    the first [pd.read_hdf] when the file holds any.  Either way the
    content of the file is as before, nothing is printed, no typed line
    is taken, and the file is left held open. *)
Theorem read_ivs_outcome {num} (filename : string) (s : Hdf.Session num) :
  Hdf.read_ivs filename s
  = (if bool_decide (Hdf.keys (store_of (Hdf.world s) filename) = [])
     then Hdf.Done [] else Hdf.Failed (Hdf.Py ValueError),
     Hdf.mkSession
       (mkWorld (stdin (Hdf.world s)) (stdout (Hdf.world s))
          (<[filename := store_of (Hdf.world s) filename]> (hdf (Hdf.world s))))
       (filename :: Hdf.held s)) ∧
  (Hdf.keys (store_of (Hdf.world s) filename) = []
   ↔ store_of (Hdf.world s) filename = ∅).
Proof.
  split.
  - rewrite read_ivs_held.
    by destruct (Hdf.keys (store_of (Hdf.world s) filename)).
  - unfold Hdf.keys. rewrite <- map_to_list_empty_iff. split.
    + apply fmap_nil_inv.
    + by intros ->.
Qed.

(** X16.  A label that pandas refuses stops [save_dfs] at its record.
    When the put of the record after [pre] raises [e] and leaves the
    content of the file as it is - as the empty label does, with
    NodeError - the call raises [e]; the records of [pre] are in the file
    and reported, the refused record and those after it are not written,
    and the file exists even if nothing was stored. *)
Theorem save_dfs_refused_label {num} (P : Hdf.Pandas num)
    (pre post : list (DataFrame num)) (r : row num) (rows : list (row num))
    (e : Hdf.raised) (filename : string) (s : Hdf.Session num) :
  Forall (Hdf.storable P) pre →
  Hdf.flat (store_of (Hdf.world s) filename) →
  (∀ store, Hdf.flat store →
            Hdf.put P store (col_label r) (r :: rows) = (Hdf.Failed e, store)) →
  ∃ s1,
    Hdf.save_dfs P pre filename s = (Hdf.Done (), s1) ∧
    Hdf.save_dfs P (pre ++ (r :: rows) :: post) filename s
    = (Hdf.Failed e,
       Hdf.with_store s1 filename (store_of (Hdf.world s1) filename)).
Proof.
  intros Hall Hflat Hrefused.
  destruct (save_dfs_session P pre filename s Hall Hflat)
    as (s1 & Hsave & _ & _ & _ & Hhdf).
  pose proof (store_after_save pre filename s s1 Hhdf) as Hstore.
  assert (Hflat1 : Hdf.flat (store_of (Hdf.world s1) filename)).
  { rewrite Hstore. by apply (written_flat P). }
  exists s1. split; [done|].
  etrans; [exact (save_dfs_split P pre post (r :: rows) filename s s1 Hsave)|].
  unfold Hdf.save_body, Hdf.bind, Hdf.lift.
  assert (Hget : getitem (pre ++ (r :: rows : DataFrame num) :: post)
                   (Z.of_nat (length pre)) = Ok (r :: rows)).
  { apply getitem_range. by apply list_lookup_middle. }
  rewrite Hget. simpl. unfold Hdf.to_hdf. by rewrite (Hrefused _ Hflat1).
Qed.

Lemma save_dfs_refused_label_witness :
  ∃ s1,
    Hdf.save_dfs sample_pandas [run "a.csv" "a"] "tests.h5" fresh_session
    = (Hdf.Done (), s1) ∧
    Hdf.save_dfs sample_pandas ([run "a.csv" "a"] ++ unnamed :: [run "c.csv" "c"])
      "tests.h5" fresh_session
    = (Hdf.Failed Hdf.NodeError,
       Hdf.with_store s1 "tests.h5" (store_of (Hdf.world s1) "tests.h5")).
Proof.
  apply (save_dfs_refused_label sample_pandas [run "a.csv" "a"] [run "c.csv" "c"]
           (Row 0 (-3) 12 "b.csv" "") [Row 1 (-3) 13 "b.csv" ""]
           Hdf.NodeError "tests.h5" fresh_session).
  - sample_storable.
  - apply flat_empty.
  - intros store _. reflexivity.
Defined.

(** With the sample pandas: of two records saved under the label 'bias'
    the later one is in the file, and the reload that follows fails. *)
Example save_then_reload_sample :
  store_of (Hdf.world (snd (Hdf.save_dfs sample_pandas colliding "tests.h5"
                              fresh_session))) "tests.h5"
  = {[ "/bias" := run "c.csv" "bias"; "/dark" := run "b.csv" "dark" ]} ∧
  fst (Hdf.read_ivs "tests.h5"
         (snd (Hdf.save_dfs sample_pandas colliding "tests.h5" fresh_session)))
  = Hdf.Failed (Hdf.Py ValueError).
Proof. split; [|reflexivity]. apply map_eq. intros key. vm_compute. reflexivity. Qed.
